(** * pyecobee: the token lifecycle and the request classification layer

    A shallow embedding of [pyecobee/__init__.py] (class [Ecobee]) and the
    properties of its authorization flow, its response classification, its
    thermostat cache and the payloads of its thermostat functions.

    Python objects are values of [pyval]; the [Ecobee] instance is a record
    threaded through a state-and-exception monad, together with what the
    process does to the outside world: the log records it emits, the HTTP
    requests it sends and the configurations it hands to the file helper.
    The answer of the network to a request is an argument of each method. *)

From Stdlib Require Import ZArith QArith String Ascii List Bool Lia.
Import ListNotations.

Local Open Scope string_scope.
Local Open Scope Z_scope.
Local Set Warnings "-register-all".

(** ** Python values *)

(** A Python [float]: a finite value (every finite double is a rational), an
    infinity or a NaN. [json.loads] produces all three. *)
Inductive pyfloat : Type :=
| FFinite (q : Q)
| FInf (negative : bool)
| FNaN.

(** The Python objects the client handles: what [response.json()] returns
    and what the methods build.  A [dict] has [str] keys and is kept as an
    association list in insertion order; the first binding of a key is the
    one that counts.  A character of a [str] is one [ascii]. *)
Inductive pyval : Type :=
| PNone
| PBool (b : bool)
| PInt (n : Z)
| PFloat (f : pyfloat)
| PStr (s : string)
| PList (l : list pyval)
| PDict (d : list (string * pyval)).

(** The exceptions that can leave a method of the class.  [HTTPError],
    [Timeout], [RequestException] and [JSONDecodeError] never do: [_request]
    handles them, and they appear as cases of [net_outcome] instead.
    [RecursionError] and [ValueError] are what the JSON parser raises on a
    body nested too deeply and on an integer of too many digits. *)
Inductive exn : Type :=
| InvalidTokenError (msg : string)
| ExpiredTokenError (msg : string)
| AttributeError
| KeyError
| TypeError
| IndexError
| RecursionError
| ValueError.

Inductive outcome (A : Type) : Type :=
| Return (a : A)
| Raise (e : exn).
Arguments Return {A} a.
Arguments Raise {A} e.

Module Py.

Fixpoint lookup {V : Type} (k : string) (d : list (string * V)) : option V :=
  match d with
  | [] => None
  | (k', v) :: d' => if String.eqb k' k then Some v else lookup k d'
  end.

(** [d[k] = v]: an existing key keeps its place. *)
Fixpoint setitem {V : Type} (k : string) (v : V) (d : list (string * V))
  : list (string * V) :=
  match d with
  | [] => [(k, v)]
  | (k', v') :: d' =>
      if String.eqb k' k then (k', v) :: d' else (k', v') :: setitem k v d'
  end.

Definition keys {V : Type} (d : list (string * V)) : list string :=
  map fst d.

(** [v.get(k, default)]; only a [dict] has the method. *)
Definition get (v : pyval) (k : string) (default : pyval) : outcome pyval :=
  match v with
  | PDict d =>
      Return (match lookup k d with Some x => x | None => default end)
  | _ => Raise AttributeError
  end.

(** [v[k]] for a [str] key [k]. *)
Definition getitem (v : pyval) (k : string) : outcome pyval :=
  match v with
  | PDict d =>
      match lookup k d with Some x => Return x | None => Raise KeyError end
  | _ => Raise TypeError
  end.

(** Position of index [i] in a sequence of length [len], negative indices
    counting from the end. *)
Definition position (len : nat) (i : Z) : option nat :=
  if (0 <=? i) && (i <? Z.of_nat len) then Some (Z.to_nat i)
  else if (- Z.of_nat len <=? i) && (i <? 0)
       then Some (Z.to_nat (Z.of_nat len + i))
       else None.

(** [v[i]] for an [int] index [i]. *)
Definition index (v : pyval) (i : Z) : outcome pyval :=
  match v with
  | PList l =>
      match position (List.length l) i with
      | Some n =>
          match nth_error l n with
          | Some x => Return x
          | None => Raise IndexError
          end
      | None => Raise IndexError
      end
  | PStr s =>
      match position (String.length s) i with
      | Some n =>
          match String.get n s with
          | Some c => Return (PStr (String c EmptyString))
          | None => Raise IndexError
          end
      | None => Raise IndexError
      end
  | PDict _ => Raise KeyError
  | _ => Raise TypeError
  end.

(** [v == n] for an [int] literal [n]: [True == 1] and [1.0 == 1] hold. *)
Definition eq_int (v : pyval) (n : Z) : bool :=
  match v with
  | PInt m => m =? n
  | PBool b => (if b then 1 else 0) =? n
  | PFloat (FFinite q) => Qeq_bool q (inject_Z n)
  | _ => false
  end.

(** [v == s] for a [str] literal [s]. *)
Definition eq_str (v : pyval) (s : string) : bool :=
  match v with
  | PStr t => String.eqb t s
  | _ => false
  end.

(** [v in [n1, n2, ...]] for a list of [int] literals. *)
Definition in_ints (v : pyval) (ns : list Z) : bool :=
  existsb (eq_int v) ns.

(** [k in v] for a [str] [k]. *)
Definition contains (v : pyval) (k : string) : outcome bool :=
  match v with
  | PDict d => Return (match lookup k d with Some _ => true | None => false end)
  | PList l => Return (existsb (fun x => eq_str x k) l)
  | PStr s =>
      Return (match String.index 0 k s with Some _ => true | None => false end)
  | _ => Raise TypeError
  end.

(** Truth value of an object, as [if v:] tests it. *)
Definition truthy (v : pyval) : bool :=
  match v with
  | PNone => false
  | PBool b => b
  | PInt n => negb (n =? 0)
  | PFloat (FFinite q) => negb (Qeq_bool q (inject_Z 0))
  | PFloat _ => true
  | PStr s => negb (String.eqb s "")
  | PList l => match l with [] => false | _ => true end
  | PDict d => match d with [] => false | _ => true end
  end.

(** [s[:n]]. *)
Definition slice_to (n : nat) (s : string) : string := String.substring 0 n s.

(** [str(b)] for a [bool]. *)
Definition str_bool (b : bool) : string := if b then "True" else "False".

End Py.

(** ** The world around the client *)

(** An f-string before it is rendered: literal text and formatted values. *)
Inductive fpart : Type :=
| Lit (s : string)
| Fmt (v : pyval)
| FmtInt (n : Z)
| FmtExn (e : exn)
| FmtHeaders (h : list (string * list fpart)).

Definition fstring : Type := list fpart.

Inductive level : Type := DEBUG | ERROR.

Definition log_record : Type := (level * fstring)%type.

(** The arguments of [requests.request]. *)
Record http_request : Type := {
  method : string;
  url : string;
  headers : list (string * fstring);
  params : pyval;
  json : pyval;
  timeout : pyval
}.

(** What the client reads of a [requests.Response] whose body the parser
    accepts or rejects: [response_json] is the value [response.json()]
    returns, and [None] when it raises [JSONDecodeError]. *)
Record response : Type := {
  status_code : Z;
  response_json : option pyval;
  text : string
}.

(** What the network gives a request: [requests.request] raises [Timeout],
    it raises another [RequestException], or it returns a response.  For
    [NetResponse r] every call of [response.json()] returns a value or
    raises [JSONDecodeError], as [response_json r] says.  For
    [NetResponseFault r e] every call of [response.json()] raises [e], an
    exception whose class is not [JSONDecodeError] and not a
    [RequestException] ([RecursionError] on a body of a thousand opening
    brackets, [ValueError] on an integer of five thousand digits); the
    status and the text are those of [r], and [response_json r] is not
    consulted. *)
Inductive net_outcome : Type :=
| NetTimeout
| NetRequestException
| NetResponse (r : response)
| NetResponseFault (r : response) (e : exn).

(** [response.raise_for_status()] raises [HTTPError] for 4xx and 5xx. *)
Definition raises_for_status (r : response) : bool :=
  (400 <=? status_code r) && (status_code r <? 600).

(** The attributes of an [Ecobee] instance.  [_file_based_config] is [None]
    while the attribute does not exist. *)
Record Ecobee : Type := {
  thermostats : pyval;
  config_filename : pyval;
  config : pyval;
  api_key : pyval;
  pin : pyval;
  authorization_code : pyval;
  access_token : pyval;
  refresh_token : pyval;
  include_notifications : bool;
  _file_based_config : option bool
}.

(** The instance and the effects of the process so far, oldest first. *)
Record sys : Type := {
  self : Ecobee;
  logged : list log_record;
  wire : list http_request;
  disk : list (pyval * pyval)
}.

(** The names imported from [pyecobee.const]. *)
Record const : Type := {
  ECOBEE_ACCESS_TOKEN : string;
  ECOBEE_API_KEY : string;
  ECOBEE_API_VERSION : string;
  ECOBEE_AUTHORIZATION_CODE : string;
  ECOBEE_BASE_URL : string;
  ECOBEE_DEFAULT_TIMEOUT : pyval;
  ECOBEE_ENDPOINT_AUTH : string;
  ECOBEE_ENDPOINT_THERMOSTAT : string;
  ECOBEE_ENDPOINT_TOKEN : string;
  ECOBEE_REFRESH_TOKEN : string;
  ECOBEE_OPTIONS_NOTIFICATIONS : string
}.

(** ** The monad of the methods *)

(** A method runs from a state to a result or an exception, and a state:
    what was assigned before an exception stays assigned. *)
Definition M (A : Type) : Type := sys -> outcome A * sys.

Definition ret {A : Type} (a : A) : M A := fun s => (Return a, s).

Definition raise {A : Type} (e : exn) : M A := fun s => (Raise e, s).

Definition bind {A B : Type} (m : M A) (k : A -> M B) : M B :=
  fun s =>
    match m s with
    | (Return a, s') => k a s'
    | (Raise e, s') => (Raise e, s')
    end.

Declare Scope py_scope.
Delimit Scope py_scope with py.
Notation "x <- m ;; k" := (bind m (fun x => k))
  (at level 100, m at next level, right associativity) : py_scope.
Notation "m ;; k" := (bind m (fun _ => k))
  (at level 100, right associativity) : py_scope.
Local Open Scope py_scope.

(** A pure Python operation used as a statement. *)
Definition lift {A : Type} (o : outcome A) : M A := fun s => (o, s).

(** [try: body  except <catches> as err: handler err]. *)
Definition try_except {A : Type} (body : M A) (catches : exn -> bool)
    (handler : exn -> M A) : M A :=
  fun s =>
    match body s with
    | (Raise e, s') => if catches e then handler e s' else (Raise e, s')
    | r => r
    end.

Definition is_KeyError_or_TypeError (e : exn) : bool :=
  match e with KeyError | TypeError => true | _ => false end.

Definition is_token_error (e : exn) : bool :=
  match e with ExpiredTokenError _ | InvalidTokenError _ => true | _ => false end.

Definition get_self : M Ecobee := fun s => (Return (self s), s).

Definition update_self (f : Ecobee -> Ecobee) : M unit :=
  fun s =>
    (Return tt,
     {| self := f (self s); logged := logged s; wire := wire s; disk := disk s |}).

Definition _LOGGER_log (l : level) (msg : fstring) : M unit :=
  fun s =>
    (Return tt,
     {| self := self s; logged := logged s ++ [(l, msg)];
        wire := wire s; disk := disk s |}).

Definition _LOGGER_debug : fstring -> M unit := _LOGGER_log DEBUG.
Definition _LOGGER_error : fstring -> M unit := _LOGGER_log ERROR.

(** [requests.request(...)]: the request goes out, the network answers. *)
Definition requests_request (net : net_outcome) (rq : http_request)
  : M net_outcome :=
  fun s =>
    (Return net,
     {| self := self s; logged := logged s; wire := wire s ++ [rq];
        disk := disk s |}).

(** Modelled from the spec: [config_from_file(filename, config)] of
    [pyecobee/util.py], which is not part of the sources at hand, in its
    writing form: the persistence collaborator's [save], which stores the
    key-value mapping under the file name and returns. *)
Definition config_from_file (filename : pyval) (cfg : pyval) : M unit :=
  fun s =>
    (Return tt,
     {| self := self s; logged := logged s; wire := wire s;
        disk := disk s ++ [(filename, cfg)] |}).

(** Attribute assignments [self.x = v]. *)
Definition set_thermostats (v : pyval) (e : Ecobee) : Ecobee :=
  {| thermostats := v; config_filename := config_filename e;
     config := config e; api_key := api_key e; pin := pin e;
     authorization_code := authorization_code e;
     access_token := access_token e; refresh_token := refresh_token e;
     include_notifications := include_notifications e;
     _file_based_config := _file_based_config e |}.

Definition set_config (v : pyval) (e : Ecobee) : Ecobee :=
  {| thermostats := thermostats e; config_filename := config_filename e;
     config := v; api_key := api_key e; pin := pin e;
     authorization_code := authorization_code e;
     access_token := access_token e; refresh_token := refresh_token e;
     include_notifications := include_notifications e;
     _file_based_config := _file_based_config e |}.

Definition set_api_key (v : pyval) (e : Ecobee) : Ecobee :=
  {| thermostats := thermostats e; config_filename := config_filename e;
     config := config e; api_key := v; pin := pin e;
     authorization_code := authorization_code e;
     access_token := access_token e; refresh_token := refresh_token e;
     include_notifications := include_notifications e;
     _file_based_config := _file_based_config e |}.

Definition set_pin (v : pyval) (e : Ecobee) : Ecobee :=
  {| thermostats := thermostats e; config_filename := config_filename e;
     config := config e; api_key := api_key e; pin := v;
     authorization_code := authorization_code e;
     access_token := access_token e; refresh_token := refresh_token e;
     include_notifications := include_notifications e;
     _file_based_config := _file_based_config e |}.

Definition set_authorization_code (v : pyval) (e : Ecobee) : Ecobee :=
  {| thermostats := thermostats e; config_filename := config_filename e;
     config := config e; api_key := api_key e; pin := pin e;
     authorization_code := v;
     access_token := access_token e; refresh_token := refresh_token e;
     include_notifications := include_notifications e;
     _file_based_config := _file_based_config e |}.

Definition set_access_token (v : pyval) (e : Ecobee) : Ecobee :=
  {| thermostats := thermostats e; config_filename := config_filename e;
     config := config e; api_key := api_key e; pin := pin e;
     authorization_code := authorization_code e;
     access_token := v; refresh_token := refresh_token e;
     include_notifications := include_notifications e;
     _file_based_config := _file_based_config e |}.

Definition set_refresh_token (v : pyval) (e : Ecobee) : Ecobee :=
  {| thermostats := thermostats e; config_filename := config_filename e;
     config := config e; api_key := api_key e; pin := pin e;
     authorization_code := authorization_code e;
     access_token := access_token e; refresh_token := v;
     include_notifications := include_notifications e;
     _file_based_config := _file_based_config e |}.

Definition set_include_notifications (b : bool) (e : Ecobee) : Ecobee :=
  {| thermostats := thermostats e; config_filename := config_filename e;
     config := config e; api_key := api_key e; pin := pin e;
     authorization_code := authorization_code e;
     access_token := access_token e; refresh_token := refresh_token e;
     include_notifications := b;
     _file_based_config := _file_based_config e |}.

Definition set_file_based_config (b : bool) (e : Ecobee) : Ecobee :=
  {| thermostats := thermostats e; config_filename := config_filename e;
     config := config e; api_key := api_key e; pin := pin e;
     authorization_code := authorization_code e;
     access_token := access_token e; refresh_token := refresh_token e;
     include_notifications := include_notifications e;
     _file_based_config := Some b |}.

(** ** The class [Ecobee] *)

Section Client.

(** The constants of [pyecobee.const], [json.dumps] and the helper
    [convert_to_bool] of [pyecobee.util]: whatever they are. *)
Variable K : const.
Variable json_dumps : pyval -> string.
Variable convert_to_bool : pyval -> bool.

Definition _load_config : M unit :=
  me <- get_self ;;
  v <- lift (Py.getitem (config me) (ECOBEE_API_KEY K)) ;;
  update_self (set_api_key v) ;;
  v <- lift (Py.get (config me) (ECOBEE_ACCESS_TOKEN K) PNone) ;;
  update_self (set_access_token v) ;;
  v <- lift (Py.get (config me) (ECOBEE_AUTHORIZATION_CODE K) PNone) ;;
  update_self (set_authorization_code v) ;;
  v <- lift (Py.get (config me) (ECOBEE_REFRESH_TOKEN K) PNone) ;;
  update_self (set_refresh_token v) ;;
  present <- lift (Py.contains (config me) (ECOBEE_OPTIONS_NOTIFICATIONS K)) ;;
  if (present : bool) then
    v <- lift (Py.getitem (config me) (ECOBEE_OPTIONS_NOTIFICATIONS K)) ;;
    update_self (set_include_notifications (convert_to_bool v))
  else ret tt.

(** [Ecobee(config_filename, config)]: the attributes the constructor
    assigns first, then the choice of the configuration's home. *)
Definition __init__ (filename cfg : pyval) : M unit :=
  update_self (fun _ =>
    {| thermostats := PNone; config_filename := filename; config := cfg;
       api_key := PNone; pin := PNone; authorization_code := PNone;
       access_token := PNone; refresh_token := PNone;
       include_notifications := false; _file_based_config := None |}) ;;
  match filename, cfg with
  | PNone, PNone =>
      _LOGGER_error [Lit "No ecobee credentials supplied, unable to continue"]
  | _, _ =>
      if Py.truthy cfg then
        update_self (set_file_based_config false) ;;
        _load_config
      else update_self (set_file_based_config true)
  end.

Definition _write_config : M unit :=
  me <- get_self ;;
  let cfg := [] in
  let cfg := Py.setitem (ECOBEE_API_KEY K) (api_key me) cfg in
  let cfg := Py.setitem (ECOBEE_ACCESS_TOKEN K) (access_token me) cfg in
  let cfg := Py.setitem (ECOBEE_REFRESH_TOKEN K) (refresh_token me) cfg in
  let cfg :=
    Py.setitem (ECOBEE_AUTHORIZATION_CODE K) (authorization_code me) cfg in
  let cfg :=
    Py.setitem (ECOBEE_OPTIONS_NOTIFICATIONS K)
      (PStr (Py.str_bool (include_notifications me))) cfg in
  match _file_based_config me with
  | None => raise AttributeError
  | Some true => config_from_file (config_filename me) (PDict cfg)
  | Some false => update_self (set_config (PDict cfg))
  end.

(** The [except HTTPError] branch of [_request], for a response on which
    [response.json()] returns or raises [JSONDecodeError]: the one failure
    the inner [except] catches.  A failure of another class is the case
    [NetResponseFault] of [_request]. *)
Definition on_HTTPError (r : response) (log_msg_action : string)
    (auth_request : bool) : M unit :=
  json_payload <-
    match response_json r with
    | Some v => ret v
    | None =>
        _LOGGER_debug [Lit "Invalid JSON payload received"] ;;
        ret (PDict [])
    end ;;
  if auth_request then
    invalid_grant <-
      (if status_code r =? 400 then
         e <- lift (Py.get json_payload "error" PNone) ;;
         ret (Py.eq_str e "invalid_grant")
       else ret false) ;;
    if (invalid_grant : bool) then
      raise (InvalidTokenError
               "ecobee tokens invalid; re-authentication required")
    else
      _LOGGER_error
        [Lit "Error requesting authorization from ecobee: ";
         FmtInt (status_code r); Lit ": "; Fmt json_payload]
  else if status_code r =? 500 then
    st <- lift (Py.get json_payload "status" (PDict [])) ;;
    code <- lift (Py.get st "code" PNone) ;;
    if Py.in_ints code [1; 16] then
      raise (InvalidTokenError
               "ecobee tokens invalid; re-authentication required")
    else if Py.eq_int code 14 then
      raise (ExpiredTokenError
               "ecobee access token expired; token refresh required")
    else
      st <- lift (Py.get json_payload "status" (PDict [])) ;;
      message <- lift (Py.get st "message" (PStr "Unknown error")) ;;
      _LOGGER_error
        [Lit "Error from ecobee while attempting to "; Lit log_msg_action;
         Lit ": "; Fmt code; Lit ": "; Fmt message]
  else
    _LOGGER_error
      [Lit "Error from ecobee while attempting to "; Lit log_msg_action;
       Lit ": "; FmtInt (status_code r); Lit ": "; Fmt json_payload].

Definition _request (net : net_outcome)
    (method endpoint log_msg_action : string) (params body : pyval)
    (auth_request : bool) : M pyval :=
  me <- get_self ;;
  let url :=
    if auth_request then ECOBEE_BASE_URL K ++ "/" ++ endpoint
    else ECOBEE_BASE_URL K ++ "/" ++ ECOBEE_API_VERSION K ++ "/" ++ endpoint in
  let headers :=
    if auth_request then []
    else [("Content-Type", [Lit "application/json;charset=UTF-8"]);
          ("Authorization", [Lit "Bearer "; Fmt (access_token me)])] in
  _LOGGER_debug
    [Lit "Making request to "; Lit endpoint; Lit " endpoint to ";
     Lit log_msg_action; Lit ": url: "; Lit url; Lit ", headers: ";
     FmtHeaders headers; Lit ", params: "; Fmt params; Lit ", body: ";
     Fmt body] ;;
  answer <-
    requests_request net
      {| method := method; url := url; headers := headers;
         params := params; json := body;
         timeout := ECOBEE_DEFAULT_TIMEOUT K |} ;;
  match answer with
  | NetResponse r =>
      let log_msg :=
        match response_json r with
        | Some v => Fmt v
        | None => Lit (text r)
        end in
      _LOGGER_debug
        [Lit "Request response: "; FmtInt (status_code r); Lit ": "; log_msg] ;;
      if raises_for_status r then
        on_HTTPError r log_msg_action auth_request ;;
        ret PNone
      else
        match response_json r with
        | Some v => ret v
        | None =>
            _LOGGER_error
              [Lit "Error connecting to ecobee while attempting to ";
               Lit log_msg_action; Lit ". ";
               Lit "Possible connectivity outage."] ;;
            ret PNone
        end
  | NetResponseFault r e =>
      (* the bare [except] around the first [response.json()] swallows [e] *)
      _LOGGER_debug
        [Lit "Request response: "; FmtInt (status_code r); Lit ": ";
         Lit (text r)] ;;
      if raises_for_status r then
        (* [except HTTPError]: [response.json()] raises [e] again, which
           [except json.decoder.JSONDecodeError] does not catch; raised in
           a handler, it is out of reach of the clauses that follow *)
        raise e
      else
        (* [return response.json()] raises [e], which is neither an
           [HTTPError], nor a [Timeout], nor a [RequestException], nor a
           [JSONDecodeError] *)
        raise e
  | NetTimeout =>
      _LOGGER_error
        [Lit "Connection to ecobee timed out while attempting to ";
         Lit log_msg_action; Lit ". "; Lit "Possible connectivity outage."] ;;
      ret PNone
  | NetRequestException =>
      _LOGGER_error
        [Lit "Error connecting to ecobee while attempting to ";
         Lit log_msg_action; Lit ". "; Lit "Possible connectivity outage."] ;;
      ret PNone
  end.

Definition request_pin (net : net_outcome) : M bool :=
  me <- get_self ;;
  let params :=
    PDict [("response_type", PStr "ecobeePin");
           ("client_id", api_key me);
           ("scope", PStr "smartWrite")] in
  let log_msg_action := "request pin" in
  response <-
    _request net "GET" (ECOBEE_ENDPOINT_AUTH K) log_msg_action params PNone
      true ;;
  try_except
    (v <- lift (Py.getitem response "code") ;;
     update_self (set_authorization_code v) ;;
     v <- lift (Py.getitem response "ecobeePin") ;;
     update_self (set_pin v) ;;
     me <- get_self ;;
     _LOGGER_debug
       [Lit "Authorize your ecobee developer app with PIN code ";
        Fmt (pin me); Lit ". ";
        Lit "Goto https://www.ecobee/com/consumerportal/index.html, ";
        Lit "Click My Apps, Add Application, Enter Pin and click Authorize. ";
        Lit "After authorizing, call request_tokens method."] ;;
     ret true)
    is_KeyError_or_TypeError
    (fun err =>
       _LOGGER_debug
         [Lit "Error obtaining PIN code from ecobee: "; FmtExn err] ;;
       ret false).

Definition request_tokens (net : net_outcome) : M bool :=
  me <- get_self ;;
  let params :=
    PDict [("grant_type", PStr "ecobeePin");
           ("code", authorization_code me);
           ("client_id", api_key me)] in
  let log_msg_action := "request tokens" in
  response <-
    _request net "POST" (ECOBEE_ENDPOINT_TOKEN K) log_msg_action params PNone
      true ;;
  try_except
    (v <- lift (Py.getitem response "access_token") ;;
     update_self (set_access_token v) ;;
     v <- lift (Py.getitem response "refresh_token") ;;
     update_self (set_refresh_token v) ;;
     _write_config ;;
     update_self (set_pin PNone) ;;
     me <- get_self ;;
     _LOGGER_debug
       [Lit "Obtained tokens from ecobee: access "; Fmt (access_token me);
        Lit ", "; Lit "refresh "; Fmt (refresh_token me)] ;;
     ret true)
    is_KeyError_or_TypeError
    (fun err =>
       _LOGGER_debug
         [Lit "Error obtaining tokens from ecobee: "; FmtExn err] ;;
       ret false).

Definition refresh_tokens (net : net_outcome) : M bool :=
  me <- get_self ;;
  let params :=
    PDict [("grant_type", PStr "refresh_token");
           ("refresh_token", refresh_token me);
           ("client_id", api_key me)] in
  let log_msg_action := "refresh tokens" in
  response <-
    _request net "POST" (ECOBEE_ENDPOINT_TOKEN K) log_msg_action params PNone
      true ;;
  try_except
    (v <- lift (Py.getitem response "access_token") ;;
     update_self (set_access_token v) ;;
     v <- lift (Py.getitem response "refresh_token") ;;
     update_self (set_refresh_token v) ;;
     _write_config ;;
     me <- get_self ;;
     _LOGGER_debug
       [Lit "Refreshed tokens from ecobee: access "; Fmt (access_token me);
        Lit ", "; Lit "refresh "; Fmt (refresh_token me)] ;;
     ret true)
    is_KeyError_or_TypeError
    (fun err =>
       _LOGGER_debug
         [Lit "Error refreshing tokens from ecobee: "; FmtExn err] ;;
       ret false).

Definition get_thermostats (net : net_outcome) : M bool :=
  me <- get_self ;;
  let selection :=
    [("selectionType", PStr "registered");
     ("includeRuntime", PStr "true");
     ("includeSensors", PStr "true");
     ("includeProgram", PStr "true");
     ("includeEquipmentStatus", PStr "true");
     ("includeEvents", PStr "true");
     ("includeWeather", PStr "true");
     ("includeSettings", PStr "true")] in
  let selection :=
    if include_notifications me then
      Py.setitem "includeNotificationSettings"
        (PBool (include_notifications me)) selection
    else selection in
  let param_string := PDict [("selection", PDict selection)] in
  let params := PDict [("json", PStr (json_dumps param_string))] in
  let log_msg_action := "get thermostats" in
  response <-
    _request net "GET" (ECOBEE_ENDPOINT_THERMOSTAT K) log_msg_action params
      PNone false ;;
  try_except
    (v <- lift (Py.getitem response "thermostatList") ;;
     update_self (set_thermostats v) ;;
     ret true)
    is_KeyError_or_TypeError
    (fun _ => ret false).

Definition get_thermostat (index : Z) : M pyval :=
  me <- get_self ;;
  lift (Py.index (thermostats me) index).

Definition update (net : net_outcome) : M bool := get_thermostats net.

Definition post_update (net : net_outcome) (index : Z)
    (log_msg_action : string) (props funcs : pyval) : M unit :=
  me <- get_self ;;
  thermostat <- lift (Py.index (thermostats me) index) ;;
  identifier <- lift (Py.getitem thermostat "identifier") ;;
  let body :=
    [("selection",
      PDict [("selectionType", PStr "thermostats");
             ("selectionMatch", identifier)])] in
  let body :=
    if Py.truthy props then Py.setitem "thermostat" props body else body in
  let body :=
    if Py.truthy funcs then Py.setitem "functions" funcs body else body in
  try_except
    (_request net "POST" (ECOBEE_ENDPOINT_THERMOSTAT K) log_msg_action PNone
       (PDict body) false ;;
     ret tt)
    is_token_error
    (fun err => raise err).

(** A call [self.post_update(index, log_msg_action, k1=v1, ...)].  The
    method takes the keyword-only parameters [props] and [funcs], [None]
    when not given; a keyword it does not have is a [TypeError] raised by
    the call, before the body runs. *)
Definition call_post_update (net : net_outcome) (index : Z)
    (log_msg_action : string) (kwargs : list (string * pyval)) : M unit :=
  if forallb (fun kw => String.eqb (fst kw) "props"
                        || String.eqb (fst kw) "funcs") kwargs
  then
    post_update net index log_msg_action
      (match Py.lookup "props" kwargs with Some v => v | None => PNone end)
      (match Py.lookup "funcs" kwargs with Some v => v | None => PNone end)
  else raise TypeError.

(** [cool_temp] and [heat_temp] are [int]s, as annotated: [int(t * 10)] is
    then [t * 10]. *)
Definition set_fan_mode (net : net_outcome) (index : Z) (fan_mode : string)
    (cool_temp heat_temp : Z) (hold_type : string) : M unit :=
  call_post_update net index "set fan mode"
    [("funcs",
      PList
        [PDict
           [("type", PStr "setHold");
            ("params",
             PDict [("holdType", PStr hold_type);
                    ("coolHoldTemp", PInt (cool_temp * 10));
                    ("heatHoldTemp", PInt (heat_temp * 10));
                    ("fan", PStr fan_mode)])]])].

Definition set_hold_temp (net : net_outcome) (index : Z)
    (cool_temp heat_temp : Z) (hold_type hold_hours : string) : M unit :=
  let f_params :=
    [("holdType", PStr hold_type);
     ("coolHoldTemp", PInt (cool_temp * 10));
     ("heatHoldTemp", PInt (heat_temp * 10))] in
  let f_params :=
    if String.eqb hold_type "holdHours"
    then Py.setitem "holdHours" (PStr hold_hours) f_params
    else f_params in
  let f := PDict [("type", PStr "setHold"); ("params", PDict f_params)] in
  call_post_update net index "set hold temp" [("functions", PList [f])].

Definition create_vacation (net : net_outcome) (index : Z)
    (vacation_name : string) (cool_temp heat_temp : Z)
    (start_date start_time end_date end_time : pyval)
    (fan_mode fan_min_on_time : string) : M unit :=
  call_post_update net index "create a vacation"
    [("funcs",
      PList
        [PDict
           [("type", PStr "createVacation");
            ("params",
             PDict [("name", PStr vacation_name);
                    ("coolHoldTemp", PInt (cool_temp * 10));
                    ("heatHoldTemp", PInt (heat_temp * 10));
                    ("startDate", start_date);
                    ("startTime", start_time);
                    ("endDate", end_date);
                    ("endTime", end_time);
                    ("fan_mode", PStr fan_mode);
                    ("fan_min_on_time", PStr fan_min_on_time)])]])].

Definition send_message (net : net_outcome) (index : Z) (message : string)
  : M unit :=
  call_post_update net index "send message"
    [("funcs",
      PList
        [PDict
           [("type", PStr "sendMessage");
            ("params",
             PDict [("text", PStr (Py.slice_to 500 message))])]])].

(** [config_from_file(self.config_filename)] in its reading form belongs to
    [pyecobee/util.py], which is not part of the sources at hand: what the
    helper returns is the argument [stored]. *)
Definition read_config_from_file (stored : pyval) : M unit :=
  me <- get_self ;;
  match _file_based_config me with
  | None => raise AttributeError
  | Some true =>
      update_self (set_config stored) ;;
      _load_config
  | Some false => ret tt
  end.

Definition get_remote_sensors (index : Z) : M pyval :=
  me <- get_self ;;
  thermostat <- lift (Py.index (thermostats me) index) ;;
  lift (Py.getitem thermostat "remoteSensors").

Definition get_equipment_notifications (index : Z) : M pyval :=
  me <- get_self ;;
  thermostat <- lift (Py.index (thermostats me) index) ;;
  settings <- lift (Py.getitem thermostat "notificationSettings") ;;
  lift (Py.getitem settings "equipment").

Definition set_hvac_mode (net : net_outcome) (index : Z) (hvac_mode : string)
  : M unit :=
  call_post_update net index "set HVAC mode"
    [("props", PDict [("settings", PDict [("hvacMode", PStr hvac_mode)])])].

Definition set_fan_min_on_time (net : net_outcome) (index : Z)
    (fan_min_on_time : Z) : M unit :=
  call_post_update net index "set fan minimum on time"
    [("props",
      PDict [("settings", PDict [("fanMinOnTime", PInt fan_min_on_time)])])].

Definition set_climate_hold (net : net_outcome) (index : Z)
    (climate hold_type : string) : M unit :=
  call_post_update net index "set climate hold"
    [("funcs",
      PList
        [PDict
           [("type", PStr "setHold");
            ("params",
             PDict [("holdType", PStr hold_type);
                    ("holdClimateRef", PStr climate)])]])].

Definition delete_vacation (net : net_outcome) (index : Z) (vacation : string)
  : M unit :=
  call_post_update net index "delete a vacation"
    [("funcs",
      PList
        [PDict
           [("type", PStr "deleteVacation");
            ("params", PDict [("name", PStr vacation)])]])].

Definition resume_program (net : net_outcome) (index : Z) (resume_all : bool)
  : M unit :=
  call_post_update net index "resume program"
    [("funcs",
      PList
        [PDict
           [("type", PStr "resumeProgram");
            ("params", PDict [("resumeAll", PBool resume_all)])]])].

(** [humidity] is a [str], as annotated: [str(humidity)] is [humidity]. *)
Definition set_humidity (net : net_outcome) (index : Z) (humidity : string)
  : M unit :=
  call_post_update net index "set humidity level"
    [("props", PDict [("settings", PDict [("humidity", PStr humidity)])])].

Definition set_mic_mode (net : net_outcome) (index : Z) (mic_enabled : bool)
  : M unit :=
  call_post_update net index "set mic mode"
    [("props",
      PDict [("audio", PDict [("microphoneEnabled", PBool mic_enabled)])])].

(** [auto_away] and [follow_me] are [None] when not given. *)
Definition set_occupancy_modes (net : net_outcome) (index : Z)
    (auto_away follow_me : pyval) : M unit :=
  call_post_update net index "set occupancy modes"
    [("props",
      PDict [("settings",
              PDict [("autoAway", auto_away);
                     ("followMeComfort", follow_me)])])].

Definition set_dst_mode (net : net_outcome) (index : Z) (enable_dst : bool)
  : M unit :=
  call_post_update net index "set dst mode"
    [("props",
      PDict [("location", PDict [("isDaylightSaving", PBool enable_dst)])])].

End Client.

(** ** Observations *)

(** The five key names are different strings. *)
Definition distinct_keys (K : const) : Prop :=
  NoDup [ECOBEE_API_KEY K; ECOBEE_ACCESS_TOKEN K; ECOBEE_REFRESH_TOKEN K;
         ECOBEE_AUTHORIZATION_CODE K; ECOBEE_OPTIONS_NOTIFICATIONS K].

(** The configuration [_write_config] builds from the attributes. *)
Definition config_of (K : const) (e : Ecobee) : list (string * pyval) :=
  [(ECOBEE_API_KEY K, api_key e);
   (ECOBEE_ACCESS_TOKEN K, access_token e);
   (ECOBEE_REFRESH_TOKEN K, refresh_token e);
   (ECOBEE_AUTHORIZATION_CODE K, authorization_code e);
   (ECOBEE_OPTIONS_NOTIFICATIONS K,
    PStr (Py.str_bool (include_notifications e)))].

(** The persisted configuration: [self.config] for a client configured in
    memory, the last mapping handed to the file helper for a file-based one. *)
Definition persisted (s : sys) : option pyval :=
  match _file_based_config (self s) with
  | Some true =>
      match rev (disk s) with
      | (_, cfg) :: _ => Some cfg
      | [] => None
      end
  | Some false => Some (config (self s))
  | None => None
  end.

Definition on_self (f : Ecobee -> Ecobee) (s : sys) : sys :=
  {| self := f (self s); logged := logged s; wire := wire s; disk := disk s |}.

(** The response [r] with another outcome of [response.json()]. *)
Definition with_json (j : option pyval) (r : response) : response :=
  {| status_code := status_code r; response_json := j; text := text r |}.

(** The last record logged is an error record. *)
Definition logs_error (before after : sys) : Prop :=
  exists earlier msg,
    logged after = (logged before ++ earlier ++ [(ERROR, msg)])%list.

(** A failure that is absorbed: [_request] returns [None], has logged an
    error, and leaves the instance as it was. *)
Definition absorbed (before : sys) (run : outcome pyval * sys) : Prop :=
  fst run = Return PNone /\ self (snd run) = self before
  /\ logs_error before (snd run).

(** [get_thermostats] receives a success payload with a [thermostatList]. *)
Definition fetch_success (net : net_outcome) (v : pyval) : Prop :=
  exists r p,
    net = NetResponse r /\ raises_for_status r = false
    /\ response_json r = Some p /\ Py.getitem p "thermostatList" = Return v.

(** The error payload the [except HTTPError] branch works on. *)
Definition error_payload (r : response) : pyval :=
  match response_json r with Some v => v | None => PDict [] end.

(** What [_request] hands back for a response that is not an HTTP error. *)
Definition success_payload (r : response) : pyval :=
  match response_json r with Some v => v | None => PNone end.

(** The methods of the class that talk to the service or touch the
    configuration.  Every thermostat function is a call of [post_update]
    with its keyword arguments. *)
Inductive operation : Type :=
| RequestPin
| RequestTokens
| RefreshTokens
| GetThermostats
| PostUpdate (index : Z) (log_msg_action : string)
    (kwargs : list (string * pyval))
| WriteConfig
| ReadConfigFromFile (stored : pyval).

(** The state a method leaves, whether it returns or raises. *)
Definition perform (K : const) (json_dumps : pyval -> string)
    (convert_to_bool : pyval -> bool) (net : net_outcome) (op : operation)
    (s : sys) : sys :=
  match op with
  | RequestPin => snd (request_pin K net s)
  | RequestTokens => snd (request_tokens K net s)
  | RefreshTokens => snd (refresh_tokens K net s)
  | GetThermostats => snd (get_thermostats K json_dumps net s)
  | PostUpdate index log_msg_action kwargs =>
      snd (call_post_update K net index log_msg_action kwargs s)
  | WriteConfig => snd (_write_config K s)
  | ReadConfigFromFile stored =>
      snd (read_config_from_file K convert_to_bool stored s)
  end.

(** A sequence of methods, each with the answer of the network to it. *)
Fixpoint perform_all (K : const) (json_dumps : pyval -> string)
    (convert_to_bool : pyval -> bool)
    (steps : list (net_outcome * operation)) (s : sys) : sys :=
  match steps with
  | [] => s
  | (net, op) :: rest =>
      perform_all K json_dumps convert_to_bool rest
        (perform K json_dumps convert_to_bool net op s)
  end.

(** [convert_to_bool] reads back the two strings [str] makes of a [bool]. *)
Definition reads_back_flag (convert_to_bool : pyval -> bool) : Prop :=
  convert_to_bool (PStr "True") = true
  /\ convert_to_bool (PStr "False") = false.

(** The four credentials and the flag of an instance. *)
Definition same_credentials (a b : Ecobee) : Prop :=
  api_key a = api_key b
  /\ access_token a = access_token b
  /\ refresh_token a = refresh_token b
  /\ authorization_code a = authorization_code b
  /\ include_notifications a = include_notifications b.

(** The network answers with something [_request] absorbs: no response, or
    a response on which [response.json()] returns or raises
    [JSONDecodeError] ([NetResponse]) and that is either a success status
    with [JSONDecodeError], or an HTTP error whose status is not the one the
    flow inspects (400 in the authorization flow, 500 outside), whatever the
    body parsed to.  A response on which the parser fails in another way
    ([NetResponseFault]) is not among them. *)
Definition absorbed_answer (auth : bool) (net : net_outcome) : Prop :=
  net = NetTimeout \/ net = NetRequestException
  \/ (exists r, net = NetResponse r /\ raises_for_status r = false
                /\ response_json r = None)
  \/ (exists r, net = NetResponse r /\ raises_for_status r = true
                /\ status_code r <> (if auth then 400 else 500)).

(** A token exchange that fails on its payload: false is returned, nothing
    is persisted, and the instance is as before, except for the access token
    when the payload had one. *)
Definition exchange_fails (payload : pyval) (before : sys)
    (run : outcome bool * sys) : Prop :=
  fst run = Return false
  /\ persisted (snd run) = persisted before
  /\ disk (snd run) = disk before
  /\ ((forall v, Py.getitem payload "access_token" <> Return v) ->
      self (snd run) = self before)
  /\ (forall a, Py.getitem payload "access_token" = Return a ->
      self (snd run) = set_access_token a (self before)).

(** A call that changes neither the instance nor the disk. *)
Definition untouched {A : Type} (before : sys) (run : outcome A * sys) : Prop :=
  self (snd run) = self before /\ disk (snd run) = disk before.

(** A call that sends exactly one request, a POST without query parameters
    whose JSON body is the mapping [body]. *)
Definition posts_body {A : Type} (before : sys) (run : outcome A * sys)
    (body : list (string * pyval)) : Prop :=
  exists rq,
    wire (snd run) = (wire before ++ [rq])%list
    /\ method rq = "POST"
    /\ params rq = PNone
    /\ json rq = PDict body.

(** The index is outside the list: [len <= i] or [i < -len]. *)
Definition out_of_range (l : list pyval) (i : Z) : Prop :=
  Z.of_nat (List.length l) <= i \/ i < - Z.of_nat (List.length l).

(** The keys of the selection [get_thermostats] always asks for. *)
Definition base_selection : list (string * pyval) :=
  [("selectionType", PStr "registered");
   ("includeRuntime", PStr "true");
   ("includeSensors", PStr "true");
   ("includeProgram", PStr "true");
   ("includeEquipmentStatus", PStr "true");
   ("includeEvents", PStr "true");
   ("includeWeather", PStr "true");
   ("includeSettings", PStr "true")].

(** The body [post_update] sends for a thermostat identifier. *)
Definition selection_of (identifier : pyval) : string * pyval :=
  ("selection",
   PDict [("selectionType", PStr "thermostats");
          ("selectionMatch", identifier)]).

(** The body of an update: the selection, then the properties and the
    functions that are not empty. *)
Definition update_body (identifier props funcs : pyval)
  : list (string * pyval) :=
  (selection_of identifier
   :: (if Py.truthy props then [("thermostat", props)] else [])
   ++ (if Py.truthy funcs then [("functions", funcs)] else []))%list.

(** The two exceptions [_request] raises on purpose. *)
Definition tokens_invalid : exn :=
  InvalidTokenError "ecobee tokens invalid; re-authentication required".

Definition token_expired : exn :=
  ExpiredTokenError "ecobee access token expired; token refresh required".

(** ** Concrete data for running the model *)

(** One choice of the constants; the theorems hold for every choice. *)
Definition sample_const : const :=
  {| ECOBEE_ACCESS_TOKEN := "ACCESS_TOKEN";
     ECOBEE_API_KEY := "API_KEY";
     ECOBEE_API_VERSION := "1";
     ECOBEE_AUTHORIZATION_CODE := "AUTHORIZATION_CODE";
     ECOBEE_BASE_URL := "https://api.ecobee.com";
     ECOBEE_DEFAULT_TIMEOUT := PInt 30;
     ECOBEE_ENDPOINT_AUTH := "authorize";
     ECOBEE_ENDPOINT_THERMOSTAT := "thermostat";
     ECOBEE_ENDPOINT_TOKEN := "token";
     ECOBEE_REFRESH_TOKEN := "REFRESH_TOKEN";
     ECOBEE_OPTIONS_NOTIFICATIONS := "INCLUDE_NOTIFICATIONS" |}.

Definition sample_dumps (v : pyval) : string := "{}".

Definition sample_convert (v : pyval) : bool := Py.eq_str v "True".

Definition blank : sys :=
  {| self :=
       {| thermostats := PNone; config_filename := PNone; config := PNone;
          api_key := PNone; pin := PNone; authorization_code := PNone;
          access_token := PNone; refresh_token := PNone;
          include_notifications := false; _file_based_config := None |};
     logged := []; wire := []; disk := [] |}.

(** A client built by [Ecobee(config={"API_KEY": "KEY0"})]. *)
Definition fresh_client : sys :=
  snd (__init__ sample_const sample_convert PNone
         (PDict [("API_KEY", PStr "KEY0")]) blank).

(** The same client after a fetch that found one thermostat. *)
Definition client_with_thermostat : sys :=
  on_self
    (set_thermostats
       (PList [PDict [("identifier", PStr "411955544321");
                      ("name", PStr "Hallway")]]))
    fresh_client.

Definition ok_response (payload : pyval) : response :=
  {| status_code := 200; response_json := Some payload; text := "" |}.

Definition error_response (status : Z) (payload : option pyval) : response :=
  {| status_code := status; response_json := payload; text := "" |}.

Definition pin_payload : pyval :=
  PDict [("code", PStr "AUTH123"); ("ecobeePin", PStr "ABCD-EFGH")].

Definition token_payload : pyval :=
  PDict [("access_token", PStr "AT1"); ("refresh_token", PStr "RT1")].

Definition thermostat_payload : pyval :=
  PDict [("thermostatList",
          PList [PDict [("identifier", PStr "411955544321")]])].

(** The client after [request_pin] was answered with a PIN. *)
Definition client_with_pin : sys :=
  snd (request_pin sample_const (NetResponse (ok_response pin_payload))
         fresh_client).

(** A client built by [Ecobee()], without file name and configuration. *)
Definition unconfigured_client : sys :=
  snd (__init__ sample_const sample_convert PNone PNone blank).

(** A client built by [Ecobee(config_filename="ecobee.conf")]. *)
Definition file_client : sys :=
  snd (__init__ sample_const sample_convert (PStr "ecobee.conf") PNone blank).

(** The 400 the service answers with when a grant is no longer valid. *)
Definition invalid_grant_response : response :=
  error_response 400 (Some (PDict [("error", PStr "invalid_grant")])).

Definition two_thermostats : list pyval :=
  [PDict [("identifier", PStr "411955544321")];
   PDict [("identifier", PStr "511955544322")]].

(** A 404 whose body is a JSON array. *)
Definition not_found_response : response :=
  error_response 404 (Some (PList [])).

(** A success payload for a token exchange without the refresh token. *)
Definition access_only_payload : pyval := PDict [("access_token", PStr "AT2")].

(** A stored configuration with an API key, a refresh token and the flag. *)
Definition stored_config : list (string * pyval) :=
  [("API_KEY", PStr "KEY0"); ("REFRESH_TOKEN", PStr "RT0");
   ("INCLUDE_NOTIFICATIONS", PStr "True")].

(** A success payload for a fetch with two thermostats. *)
Definition two_thermostats_payload : pyval :=
  PDict [("thermostatList", PList two_thermostats)].

(** The 500 the service answers with when the access token has expired. *)
Definition expired_response : response :=
  error_response 500
    (Some (PDict [("status",
                   PDict [("code", PInt 14);
                          ("message", PStr "Authentication token has expired")])])).

(** A success payload for [request_pin] without the PIN. *)
Definition code_only_payload : pyval := PDict [("code", PStr "AUTH123")].

(** A message of 600 characters: 60 times the ten digits. *)
Fixpoint repeat_string (n : nat) (s : string) : string :=
  match n with
  | O => ""
  | S n' => s ++ repeat_string n' s
  end.

Definition message600 : string := repeat_string 60 "0123456789".

(** A body of a thousand opening brackets: not JSON, and nested too deeply
    for the parser, which gives up with [RecursionError]. *)
Definition bracket_body (status : Z) : response :=
  {| status_code := status; response_json := None;
     text := repeat_string 1000 "[" |}.

(** ** Proof tools *)

(** Unfold the monad and the effects, then compute. *)
Ltac run :=
  unfold bind, ret, raise, lift, get_self, update_self, try_except,
    _LOGGER_debug, _LOGGER_error, _LOGGER_log, requests_request,
    config_from_file in *;
  cbn in *.

(** Split on the first scrutinee that blocks computation. *)
Ltac fork :=
  match goal with
  | |- context [match ?x with _ => _ end] =>
      lazymatch x with
      | context [match _ with _ => _ end] => fail
      | _ => destruct x eqn:?
      end
  | |- context [if ?x then _ else _] =>
      lazymatch x with
      | context [if _ then _ else _] => fail
      | _ => destruct x eqn:?
      end
  end.

(** Show that the log grew and ends with an error record. *)
Ltac solve_logs :=
  unfold logs_error; cbn; repeat rewrite <- app_assoc; cbn;
  first
    [ eexists (@nil _); eexists; reflexivity
    | eexists (cons _ nil); eexists; reflexivity
    | eexists (cons _ (cons _ nil)); eexists; reflexivity
    | eexists (cons _ (cons _ (cons _ nil))); eexists; reflexivity
    | eexists (cons _ (cons _ (cons _ (cons _ nil)))); eexists; reflexivity ].

(** ** What a request does and does not touch *)

Section Request.

Variable K : const.

Lemma on_HTTPError_self r action auth s :
  self (snd (on_HTTPError r action auth s)) = self s.
Proof.
  unfold on_HTTPError, Py.get; run.
  repeat (fork; cbn; try reflexivity).
Qed.

Lemma on_HTTPError_wire r action auth s :
  wire (snd (on_HTTPError r action auth s)) = wire s
  /\ disk (snd (on_HTTPError r action auth s)) = disk s.
Proof.
  unfold on_HTTPError, Py.get; run.
  repeat (fork; cbn; try (split; reflexivity)).
Qed.

Lemma _request_self net method endpoint action params body auth s :
  self (snd (_request K net method endpoint action params body auth s))
  = self s.
Proof.
  unfold _request; run.
  destruct net as [ | | r | r fault]; cbn; try reflexivity;
    [ | destruct (raises_for_status r); reflexivity ].
  destruct (raises_for_status r); cbn.
  - match goal with
    | |- context [on_HTTPError r action auth ?s1] =>
        pose proof (on_HTTPError_self r action auth s1) as Hs;
        destruct (on_HTTPError r action auth s1) as [[u | e] s2]
    end; cbn in *; exact Hs.
  - destruct (response_json r); reflexivity.
Qed.

(** Every call sends exactly one request, with the body and the
    parameters it was given, and writes nothing to disk. *)
Lemma _request_wire net verb endpoint action query body auth s :
  exists rq,
    wire (snd (_request K net verb endpoint action query body auth s))
    = (wire s ++ [rq])%list
    /\ json rq = body /\ params rq = query /\ method rq = verb
    /\ disk (snd (_request K net verb endpoint action query body auth s))
       = disk s.
Proof.
  unfold _request; run.
  eexists; repeat split;
    try (destruct net as [ | | r | r fault]; cbn; try reflexivity;
         [ | destruct (raises_for_status r); reflexivity ];
         destruct (raises_for_status r); cbn;
         [ match goal with
           | |- context [on_HTTPError r action auth ?s1] =>
               pose proof (on_HTTPError_wire r action auth s1) as [Hw Hd];
               destruct (on_HTTPError r action auth s1) as [[u | e] s2]
           end; cbn in *; first [exact Hw | exact Hd]
         | destruct (response_json r); reflexivity ]);
    reflexivity.
Qed.

(** A response that is not an HTTP error hands its payload back, or
    [None] when the body is rejected with [JSONDecodeError]. *)
Lemma _request_success r method endpoint action params body auth s :
  raises_for_status r = false ->
  fst (_request K (NetResponse r) method endpoint action params body auth s)
  = Return (success_payload r).
Proof.
  intros Hok. unfold _request, success_payload; run. rewrite Hok.
  destruct (response_json r); reflexivity.
Qed.

(** Transport failures and success bodies rejected with [JSONDecodeError]
    are absorbed. *)
Lemma _request_transport_failure net method endpoint action params body
    auth s :
  net = NetTimeout \/ net = NetRequestException
  \/ (exists r, net = NetResponse r /\ raises_for_status r = false
                /\ response_json r = None) ->
  absorbed s (_request K net method endpoint action params body auth s).
Proof.
  intros [-> | [-> | (r & -> & Hok & Hp)]];
    unfold absorbed, logs_error, _request; run;
    try rewrite Hok, Hp; cbn;
    (split; [reflexivity | split; [reflexivity | solve_logs]]).
Qed.

(** An HTTP error in the authorization flow, when the lookup of [error]
    can be made: invalid tokens for a 400 with [invalid_grant], an
    absorbed failure otherwise. *)
Lemma _request_auth_error r method endpoint action params body s err :
  raises_for_status r = true ->
  (status_code r =? 400) = false
  \/ Py.get (error_payload r) "error" PNone = Return err ->
  let result :=
    _request K (NetResponse r) method endpoint action params body true s in
  if (status_code r =? 400) && Py.eq_str err "invalid_grant"
  then fst result = Raise tokens_invalid
  else absorbed s result.
Proof.
  intros Hbad Hget. unfold absorbed, _request, on_HTTPError, error_payload in *.
  run. rewrite Hbad. cbn.
  destruct (status_code r =? 400) eqn:H400; cbn.
  - destruct Hget as [Hget | Hget]; [discriminate | ].
    destruct (response_json r) as [payload | ]; cbn in *.
    + rewrite Hget; cbn.
      destruct (Py.eq_str err "invalid_grant"); cbn;
        [ reflexivity | repeat split; solve_logs ].
    + injection Hget as <-. cbn. repeat split; solve_logs.
  - destruct (response_json r) as [payload | ]; cbn;
      repeat split; solve_logs.
Qed.

(** A 500 outside the authorization flow, when the lookup of
    [status.code] can be made. *)
Lemma _request_api_error r method endpoint action params body s st code :
  raises_for_status r = true ->
  status_code r = 500 ->
  Py.get (error_payload r) "status" (PDict []) = Return st ->
  Py.get st "code" PNone = Return code ->
  let result :=
    _request K (NetResponse r) method endpoint action params body false s in
  if Py.in_ints code [1; 16] then fst result = Raise tokens_invalid
  else if Py.eq_int code 14 then fst result = Raise token_expired
  else absorbed s result.
Proof.
  intros Hbad H500 Hst Hcode.
  unfold absorbed, _request, on_HTTPError, error_payload in *.
  run. rewrite Hbad, H500. cbn.
  assert (Hmsg : exists m, Py.get st "message" (PStr "Unknown error") = Return m).
  { destruct st; try discriminate. eexists; reflexivity. }
  destruct Hmsg as [m Hm].
  destruct (response_json r) as [payload | ]; cbn in Hst.
  - rewrite Hst; cbn; rewrite Hcode; cbn.
    destruct (Py.eq_int code 1 || (Py.eq_int code 16 || false)); cbn;
      [ reflexivity | ].
    destruct (Py.eq_int code 14); cbn; [ reflexivity | ].
    rewrite Hm; cbn. repeat split; solve_logs.
  - injection Hst as <-. cbn in Hcode, Hm.
    injection Hcode as <-. injection Hm as <-. cbn.
    repeat split; solve_logs.
Qed.

(** Any other HTTP error outside the authorization flow is absorbed. *)
Lemma _request_other_error r method endpoint action params body s :
  raises_for_status r = true ->
  status_code r <> 500 ->
  absorbed s
    (_request K (NetResponse r) method endpoint action params body false s).
Proof.
  intros Hbad H500. apply Z.eqb_neq in H500.
  unfold absorbed, _request, on_HTTPError. run. rewrite Hbad, H500. cbn.
  destruct (response_json r) as [payload | ]; cbn; repeat split; solve_logs.
Qed.

(** In the authorization flow the invalid-token error is raised for a 400
    whose [error] member is the string [invalid_grant], and for nothing
    else. *)
Lemma _request_auth_invalid_iff r method endpoint action params body s :
  raises_for_status r = true ->
  fst (_request K (NetResponse r) method endpoint action params body true s)
  = Raise tokens_invalid
  <-> status_code r = 400
      /\ Py.get (error_payload r) "error" PNone
         = Return (PStr "invalid_grant").
Proof.
  intros Hbad.
  destruct (status_code r =? 400) eqn:H400.
  - destruct (Py.get (error_payload r) "error" PNone) as [err | x] eqn:Hget.
    + pose proof (_request_auth_error r method endpoint action params body s
                    err Hbad (or_intror Hget)) as H.
      cbv zeta in H. rewrite H400 in H. cbn [andb] in H.
      destruct (Py.eq_str err "invalid_grant") eqn:Heq.
      * split; [ intros _ | intros _; exact H ].
        split; [ now apply Z.eqb_eq | ].
        destruct err; try discriminate.
        apply String.eqb_eq in Heq. now subst.
      * destruct H as (H & _). rewrite H.
        split; [ discriminate | ].
        intros [_ [= ->]]. cbn in Heq. discriminate.
    + split; [ | intros [_ H]; congruence ].
      assert (x = AttributeError) as ->
        by (destruct (error_payload r); cbn in Hget; congruence).
      unfold _request, on_HTTPError, error_payload in *. run.
      rewrite Hbad, H400. cbn.
      destruct (response_json r) as [payload | ]; cbn in *;
        [ rewrite Hget; cbn | ]; discriminate.
  - pose proof (_request_auth_error r method endpoint action params body s
                  PNone Hbad (or_introl H400)) as H.
    cbv zeta in H. rewrite H400 in H. cbn [andb] in H.
    destruct H as (H & _). rewrite H.
    split; [ discriminate | ].
    intros [H4 _]. apply Z.eqb_neq in H400. contradiction.
Qed.

End Request.


(** ** Classification of HTTP errors *)

(** C1. Outside the authorization flow a 500 whose [status.code] is absent
    should be an absorbed failure.  The code looks the code up with [.get]
    on whatever the body parsed to: for a body that is valid JSON but whose
    [status] member, or the body itself, is not an object, [_request] raises
    [AttributeError] instead of absorbing the failure. *)
Theorem request_500_status_not_object_raises :
  forall K method endpoint action params body s,
    fst (_request K
           (NetResponse (error_response 500 (Some (PDict [("status", PNone)]))))
           method endpoint action params body false s)
    = Raise AttributeError
    /\ fst (_request K (NetResponse (error_response 500 (Some (PList []))))
              method endpoint action params body false s)
       = Raise AttributeError.
Proof.
  intros. split; reflexivity.
Qed.

(** C2. In the authorization flow a 400 whose body is not
    [{"error": "invalid_grant"}] should be an absorbed failure.  For a body
    that is valid JSON but not an object the lookup of [error] raises
    [AttributeError], which leaves [_request]. *)
Theorem request_auth_400_body_not_object_raises :
  forall K method endpoint action params body s,
    fst (_request K (NetResponse (error_response 400 (Some (PList []))))
           method endpoint action params body true s)
    = Raise AttributeError
    /\ fst (_request K (NetResponse (error_response 400 (Some PNone)))
              method endpoint action params body true s)
       = Raise AttributeError.
Proof.
  intros. split; reflexivity.
Qed.

(** C8. A body that is not valid JSON should make the handler go on with
    the empty object.  The handler catches [JSONDecodeError] only: when
    [response.json()] fails with an exception of another class, as it does
    with [RecursionError] on a body of a thousand opening brackets, the
    exception leaves [_request], whatever the status and in either flow. *)
Theorem parser_fault_leaves_request :
  (forall K r fault verb endpoint action query body auth s,
     fst (_request K (NetResponseFault r fault) verb endpoint action query
            body auth s) = Raise fault)
  /\ fst (_request sample_const
            (NetResponseFault (bracket_body 400) RecursionError) "POST"
            "token" "refresh tokens" PNone PNone true fresh_client)
     = Raise RecursionError.
Proof.
  split; [ | reflexivity ].
  intros. unfold _request. run. destruct (raises_for_status r); reflexivity.
Qed.

(** X28. When [response.json()] raises [JSONDecodeError] on an HTTP error
    response, the handler logs it and goes on exactly as for the empty
    object [{}]; no exception leaves [_request], which returns [None] after
    logging an error, whatever the status and in either flow. *)
Theorem unparsable_error_body_is_empty_object :
  forall K r method endpoint action params body auth s,
    raises_for_status r = true ->
    response_json r = None ->
    on_HTTPError r action auth s
    = (_LOGGER_debug [Lit "Invalid JSON payload received"] ;;
       on_HTTPError (with_json (Some (PDict [])) r) action auth) s
    /\ absorbed s
         (_request K (NetResponse r) method endpoint action params body auth s)
    /\ fst (_request K (NetResponse r) method endpoint action params body
              auth s)
       = fst (_request K (NetResponse (with_json (Some (PDict [])) r)) method
                endpoint action params body auth s).
Proof.
  intros K r method endpoint action params body auth s Hbad Hjson.
  assert (Habs : absorbed s
            (_request K (NetResponse r) method endpoint action params body
               auth s)).
  { destruct auth.
    - pose proof (_request_auth_error K r method endpoint action params body s
                    PNone Hbad) as H.
      cbn zeta in H. replace (Py.eq_str PNone "invalid_grant") with false in H
        by reflexivity.
      rewrite andb_false_r in H. apply H. right.
      unfold error_payload. rewrite Hjson. reflexivity.
    - destruct (Z.eq_dec (status_code r) 500) as [H500 | H500].
      + pose proof (_request_api_error K r method endpoint action params body
                      s (PDict []) PNone Hbad H500) as H.
        apply H; unfold error_payload; try rewrite Hjson; reflexivity.
      + apply _request_other_error; assumption. }
  split; [ | split; [exact Habs | ] ].
  - unfold on_HTTPError, with_json. rewrite Hjson. run. reflexivity.
  - destruct Habs as [-> _].
    assert (Hbad' : raises_for_status (with_json (Some (PDict [])) r) = true)
      by exact Hbad.
    destruct auth.
    + pose proof (_request_auth_error K (with_json (Some (PDict [])) r) method
                    endpoint action params body s PNone Hbad') as H.
      cbn zeta in H. replace (Py.eq_str PNone "invalid_grant") with false in H
        by reflexivity.
      rewrite andb_false_r in H.
      destruct H as [-> _]; [ right; reflexivity | reflexivity ].
    + destruct (Z.eq_dec (status_code r) 500) as [H500 | H500].
      * pose proof (_request_api_error K (with_json (Some (PDict [])) r) method
                      endpoint action params body s (PDict []) PNone Hbad'
                      H500) as H.
        destruct H as [-> _]; reflexivity.
      * destruct (_request_other_error K (with_json (Some (PDict [])) r) method
                    endpoint action params body s Hbad' H500) as [-> _].
        reflexivity.
Qed.

(** ** Persistence of the credentials *)

(** With five different key names, the five assignments of [_write_config]
    make five entries, in the order of the assignments. *)
Lemma write_config_entries K (e : Ecobee) :
  distinct_keys K ->
  Py.setitem (ECOBEE_OPTIONS_NOTIFICATIONS K)
    (PStr (Py.str_bool (include_notifications e)))
    (Py.setitem (ECOBEE_AUTHORIZATION_CODE K) (authorization_code e)
       (Py.setitem (ECOBEE_REFRESH_TOKEN K) (refresh_token e)
          (Py.setitem (ECOBEE_ACCESS_TOKEN K) (access_token e)
             (Py.setitem (ECOBEE_API_KEY K) (api_key e) []))))
  = config_of K e.
Proof.
  unfold distinct_keys, config_of. intros Hd.
  repeat match goal with
         | H : NoDup (_ :: _) |- _ => inversion H; clear H; subst
         end.
  cbn in *.
  repeat match goal with
         | |- context [String.eqb ?a ?b] =>
             destruct (String.eqb_spec a b);
             [exfalso; intuition congruence | cbn]
         end.
  reflexivity.
Qed.

Lemma _write_config_run K s b :
  distinct_keys K ->
  _file_based_config (self s) = Some b ->
  _write_config K s
  = (Return tt,
     if b then
       {| self := self s; logged := logged s; wire := wire s;
          disk := (disk s
                   ++ [(config_filename (self s),
                        PDict (config_of K (self s)))])%list |}
     else on_self (set_config (PDict (config_of K (self s)))) s).
Proof.
  intros Hd Hb. unfold _write_config, bind, get_self. cbv beta iota zeta.
  rewrite (write_config_entries K (self s) Hd), Hb.
  destruct b; reflexivity.
Qed.

(** The configuration written does not depend on the PIN. *)
Lemma config_of_set_pin K p e : config_of K (set_pin p e) = config_of K e.
Proof. reflexivity. Qed.

(** ** The PIN handshake *)

(** Subscripting raises nothing but [KeyError] and [TypeError]. *)
Lemma getitem_raises v k e :
  Py.getitem v k = Raise e -> is_KeyError_or_TypeError e = true.
Proof.
  destruct v; cbn; try (intros [= <-]; reflexivity).
  destruct (Py.lookup k d); intros [= <-]; reflexivity.
Qed.

(** From here on a request is a step of its own, described by the lemmas
    above. *)
Arguments _request : simpl never.
Arguments _write_config : simpl never.

(** Bring the outcome of the request of the goal into the context. *)
Ltac answer v s1 :=
  match goal with
  | |- context [_request ?K ?net ?m ?e ?a ?p ?b ?auth ?s] =>
      let Hself := fresh "Hself" in
      let Hwire := fresh "Hwire" in
      pose proof (_request_self K net m e a p b auth s) as Hself;
      pose proof (_request_wire K net m e a p b auth s) as Hwire;
      destruct (_request K net m e a p b auth s) as [v s1];
      cbn [fst snd] in *
  end.

(** C4, as the code has it.  When a success response to [request_pin] lacks
    [code] or [ecobeePin] the call returns false and leaves the PIN, the
    access token and the refresh token alone.  The authorization code is
    left alone when [code] is missing; when only [ecobeePin] is missing it
    has already been replaced by the payload's [code]. *)
Theorem request_pin_malformed_payload :
  forall K r s,
    raises_for_status r = false ->
    (forall v, Py.getitem (success_payload r) "code" <> Return v)
    \/ (forall v, Py.getitem (success_payload r) "ecobeePin" <> Return v) ->
    fst (request_pin K (NetResponse r) s) = Return false
    /\ pin (self (snd (request_pin K (NetResponse r) s))) = pin (self s)
    /\ access_token (self (snd (request_pin K (NetResponse r) s)))
       = access_token (self s)
    /\ refresh_token (self (snd (request_pin K (NetResponse r) s)))
       = refresh_token (self s)
    /\ ((forall v, Py.getitem (success_payload r) "code" <> Return v) ->
        self (snd (request_pin K (NetResponse r) s)) = self s)
    /\ (forall c, Py.getitem (success_payload r) "code" = Return c ->
        self (snd (request_pin K (NetResponse r) s))
        = set_authorization_code c (self s)).
Proof.
  intros K r s Hok Hmiss.
  unfold request_pin. run.
  match goal with
  | |- context [_request K _ ?m ?e ?a ?p ?b ?auth s] =>
      pose proof (_request_success K r m e a p b auth s Hok) as Hrun
  end.
  answer v s1. subst v. cbn.
  destruct (Py.getitem (success_payload r) "code") as [c | e] eqn:Hcode; cbn.
  - destruct Hmiss as [Hmiss | Hmiss]; [ now elim (Hmiss c) | ].
    destruct (Py.getitem (success_payload r) "ecobeePin") as [p | e]
      eqn:Hpin; cbn; [ now elim (Hmiss p) | ].
    rewrite (getitem_raises _ _ _ Hpin). cbn. rewrite Hself.
    repeat split; try reflexivity.
    + intros H. now elim (H c).
    + intros c' [= <-]. reflexivity.
  - rewrite (getitem_raises _ _ _ Hcode). cbn. rewrite Hself.
    repeat split; try reflexivity. intros c [=].
Qed.

(** C3. [request_pin] and then [request_tokens], both answered with a
    success payload: both return true, the persisted configuration holds the
    access token, the refresh token and the authorization code received
    (next to the API key and the notifications flag), and the PIN, set by
    the first call, is [None] after the second. *)
Theorem request_pin_then_request_tokens :
  forall K r1 r2 p1 p2 code ecobeePin access refresh b s,
    distinct_keys K ->
    _file_based_config (self s) = Some b ->
    raises_for_status r1 = false ->
    response_json r1 = Some p1 ->
    Py.getitem p1 "code" = Return code ->
    Py.getitem p1 "ecobeePin" = Return ecobeePin ->
    raises_for_status r2 = false ->
    response_json r2 = Some p2 ->
    Py.getitem p2 "access_token" = Return access ->
    Py.getitem p2 "refresh_token" = Return refresh ->
    let after_pin := request_pin K (NetResponse r1) s in
    let after_tokens := request_tokens K (NetResponse r2) (snd after_pin) in
    fst after_pin = Return true
    /\ pin (self (snd after_pin)) = ecobeePin
    /\ fst after_tokens = Return true
    /\ persisted (snd after_tokens)
       = Some (PDict
                 [(ECOBEE_API_KEY K, api_key (self s));
                  (ECOBEE_ACCESS_TOKEN K, access);
                  (ECOBEE_REFRESH_TOKEN K, refresh);
                  (ECOBEE_AUTHORIZATION_CODE K, code);
                  (ECOBEE_OPTIONS_NOTIFICATIONS K,
                   PStr (if include_notifications (self s)
                         then "True" else "False"))])
    /\ access_token (self (snd after_tokens)) = access
    /\ refresh_token (self (snd after_tokens)) = refresh
    /\ authorization_code (self (snd after_tokens)) = code
    /\ pin (self (snd after_tokens)) = PNone.
Proof.
  intros K r1 r2 p1 p2 code ecobeePin access refresh b s Hd Hb
    Hok1 Hp1 Hcode Hpin Hok2 Hp2 Haccess Hrefresh.
  assert (Hfirst :
    exists l w,
      request_pin K (NetResponse r1) s
      = (Return true,
         {| self := set_pin ecobeePin (set_authorization_code code (self s));
            logged := l; wire := w; disk := disk s |})).
  { unfold request_pin. run.
    match goal with
    | |- context [_request K _ ?m ?e ?a ?p ?b ?auth s] =>
        pose proof (_request_success K r1 m e a p b auth s Hok1) as Hrun
    end.
    unfold success_payload in Hrun. rewrite Hp1 in Hrun.
    answer v s1. subst v. cbn.
    rewrite Hcode. cbn. rewrite Hpin. cbn.
    destruct Hwire as (rq & _ & _ & _ & _ & Hdisk).
    rewrite Hself, Hdisk. eexists; eexists; reflexivity. }
  destruct Hfirst as (l & w & Hfirst). cbv zeta. rewrite Hfirst. cbn [fst snd].
  split; [reflexivity | split; [reflexivity | ]].
  unfold request_tokens. run.
  match goal with
  | |- context [_request K _ ?m ?e ?a ?p ?b ?auth ?s0] =>
      pose proof (_request_success K r2 m e a p b auth s0 Hok2) as Hrun
  end.
  unfold success_payload in Hrun. rewrite Hp2 in Hrun.
  answer v s1. subst v. cbn.
  rewrite Haccess. cbn. rewrite Hrefresh. cbn.
  match goal with
  | |- context [_write_config K ?s2] =>
      rewrite (_write_config_run K s2 b Hd)
        by (cbn; rewrite Hself; exact Hb)
  end.
  destruct Hwire as (rq & _ & _ & _ & _ & Hdisk).
  unfold persisted.
  destruct b; cbn; rewrite Hself; cbn; rewrite Hb;
    try rewrite rev_unit; repeat split; reflexivity.
Qed.

(** ** The thermostat cache *)

(** What [get_thermostats] does with the value [_request] hands back. *)
Lemma get_thermostats_after_request K dumps net s :
  exists params,
    get_thermostats K dumps net s
    = match _request K net "GET" (ECOBEE_ENDPOINT_THERMOSTAT K)
              "get thermostats" params PNone false s with
      | (Return response, s1) =>
          match Py.getitem response "thermostatList" with
          | Return v => (Return true, on_self (set_thermostats v) s1)
          | Raise _ => (Return false, s1)
          end
      | (Raise e, s1) => (Raise e, s1)
      end.
Proof.
  unfold get_thermostats. run.
  match goal with
  | |- context [_request K net _ _ _ ?p _ _ s] => exists p
  end.
  destruct (_request K net _ _ _ _ _ _ s) as [[response | e] s1];
    [ | reflexivity ].
  destruct (Py.getitem response "thermostatList") as [v | e] eqn:Hlist; cbn.
  - reflexivity.
  - rewrite (getitem_raises _ _ _ Hlist). reflexivity.
Qed.

(** C5, as the code has it.  Unless [get_thermostats] receives a success
    payload with a [thermostatList], the instance, and with it the cache, is
    left as it was, whatever the network gives.  For a response, the result
    is stated where [response.json()] returns or raises [JSONDecodeError]
    ([NetResponse]): the call returns false after a timeout, a connection
    error, such a response that is not an HTTP error, and such an HTTP
    error that [_request] absorbs; the invalid-token and expired-token
    errors of a 500 are raised to the caller.  Nothing is said of the result
    when the parser fails in another way ([NetResponseFault]), nor of a 500
    whose [status] is not an object. *)
Theorem get_thermostats_without_success :
  forall K dumps net s,
    (forall v, ~ fetch_success net v) ->
    self (snd (get_thermostats K dumps net s)) = self s
    /\ (net = NetTimeout \/ net = NetRequestException
        \/ (exists r, net = NetResponse r /\ raises_for_status r = false) ->
        fst (get_thermostats K dumps net s) = Return false)
    /\ (forall r,
          net = NetResponse r -> raises_for_status r = true ->
          status_code r <> 500 ->
          fst (get_thermostats K dumps net s) = Return false)
    /\ (forall r st code,
          net = NetResponse r -> status_code r = 500 ->
          Py.get (error_payload r) "status" (PDict []) = Return st ->
          Py.get st "code" PNone = Return code ->
          fst (get_thermostats K dumps net s)
          = if Py.in_ints code [1; 16] then Raise tokens_invalid
            else if Py.eq_int code 14 then Raise token_expired
            else Return false).
Proof.
  intros K dumps net s Hnot.
  destruct (get_thermostats_after_request K dumps net s) as [params ->].
  pose proof (_request_self K net "GET" (ECOBEE_ENDPOINT_THERMOSTAT K)
                "get thermostats" params PNone false s) as Hself.
  split; [ | split; [ | split ] ].
  - destruct (_request K net _ _ _ _ _ _ s) as [[response | e] s1] eqn:Hrun;
      cbn in *; [ | exact Hself ].
    destruct (Py.getitem response "thermostatList") as [v | e] eqn:Hlist;
      cbn; [ | exact Hself ].
    exfalso.
    destruct net as [ | | r | r fault];
      try (unfold _request in Hrun; run;
           injection Hrun as <- _; discriminate);
      [ | unfold _request in Hrun; run;
          destruct (raises_for_status r); discriminate ].
    destruct (raises_for_status r) eqn:Hbad.
    + unfold _request in Hrun; run. rewrite Hbad in Hrun. cbn in Hrun.
      destruct (on_HTTPError _ _ _ _) as [[u | x] s2]; [ | discriminate ].
      injection Hrun as <- _. discriminate.
    + pose proof (_request_success K r "GET" (ECOBEE_ENDPOINT_THERMOSTAT K)
                    "get thermostats" params PNone false s Hbad) as Hv.
      rewrite Hrun in Hv. cbn in Hv. injection Hv as ->.
      unfold success_payload in Hlist.
      destruct (response_json r) as [p | ] eqn:Hp; [ | discriminate ].
      apply (Hnot v). exists r, p. repeat split; assumption.
  - intros Hcase.
    assert (Hv : exists v, fst (_request K net "GET"
                                  (ECOBEE_ENDPOINT_THERMOSTAT K)
                                  "get thermostats" params PNone false s)
                           = Return v
                           /\ forall l, Py.getitem v "thermostatList"
                                        <> Return l).
    { destruct Hcase as [-> | [-> | (r & -> & Hok)]];
        try (exists PNone; split; [reflexivity | discriminate]).
      exists (success_payload r). split.
      - apply _request_success; exact Hok.
      - intros l Hl. unfold success_payload in Hl.
        destruct (response_json r) as [p | ] eqn:Hp; [ | discriminate ].
        apply (Hnot l). exists r, p. repeat split; assumption. }
    destruct Hv as (v & Hv & Hl).
    destruct (_request K net _ _ _ _ _ _ s) as [res s1]; cbn in Hv; subst res.
    destruct (Py.getitem v "thermostatList") as [l | e] eqn:Hlist;
      [ now elim (Hl l) | reflexivity ].
  - intros r -> Hbad H500.
    destruct (_request_other_error K r "GET" (ECOBEE_ENDPOINT_THERMOSTAT K)
                "get thermostats" params PNone s Hbad H500) as (Hv & _).
    destruct (_request K _ _ _ _ _ _ _ s) as [res s1]; cbn in Hv; subst res.
    reflexivity.
  - intros r st code -> H500 Hst Hcode.
    assert (Hbad : raises_for_status r = true)
      by (unfold raises_for_status; rewrite H500; reflexivity).
    pose proof (_request_api_error K r "GET" (ECOBEE_ENDPOINT_THERMOSTAT K)
                  "get thermostats" params PNone s st code Hbad H500 Hst
                  Hcode) as Hv.
    cbv zeta in Hv.
    destruct (_request K _ _ _ _ _ _ _ s) as [res s1]; cbn [fst] in Hv.
    destruct (Py.in_ints code [1; 16]); [ subst res; reflexivity | ].
    destruct (Py.eq_int code 14); [ subst res; reflexivity | ].
    destruct Hv as (Hv & _). cbn in Hv. subst res. reflexivity.
Qed.

(** C9. Two calls of [get_thermostats] that receive the same success
    payload: each returns true and leaves the cache equal to the payload's
    [thermostatList], so the cache is the same after both. *)
Theorem get_thermostats_twice :
  forall K dumps r1 r2 p v s,
    raises_for_status r1 = false -> response_json r1 = Some p ->
    raises_for_status r2 = false -> response_json r2 = Some p ->
    Py.getitem p "thermostatList" = Return v ->
    let first := get_thermostats K dumps (NetResponse r1) s in
    let second := get_thermostats K dumps (NetResponse r2) (snd first) in
    fst first = Return true
    /\ thermostats (self (snd first)) = v
    /\ fst second = Return true
    /\ thermostats (self (snd second)) = v
    /\ self (snd second) = self (snd first).
Proof.
  assert (Hone : forall K dumps r p v s,
             raises_for_status r = false -> response_json r = Some p ->
             Py.getitem p "thermostatList" = Return v ->
             fst (get_thermostats K dumps (NetResponse r) s) = Return true
             /\ self (snd (get_thermostats K dumps (NetResponse r) s))
                = set_thermostats v (self s)).
  { intros K dumps r p v s Hok Hp Hv.
    destruct (get_thermostats_after_request K dumps (NetResponse r) s)
      as [params ->].
    pose proof (_request_self K (NetResponse r) "GET"
                  (ECOBEE_ENDPOINT_THERMOSTAT K) "get thermostats" params
                  PNone false s) as Hself.
    pose proof (_request_success K r "GET" (ECOBEE_ENDPOINT_THERMOSTAT K)
                  "get thermostats" params PNone false s Hok) as Hrun.
    unfold success_payload in Hrun. rewrite Hp in Hrun.
    destruct (_request K _ _ _ _ _ _ _ s) as [res s1]; cbn in Hrun, Hself.
    subst res. rewrite Hv. cbn. rewrite Hself. split; reflexivity. }
  intros K dumps r1 r2 p v s Hok1 Hp1 Hok2 Hp2 Hv first second.
  destruct (Hone K dumps r1 p v s Hok1 Hp1 Hv) as [Hr1 Hs1].
  destruct (Hone K dumps r2 p v (snd first) Hok2 Hp2 Hv) as [Hr2 Hs2].
  subst first second. rewrite Hr1, Hr2, Hs2, Hs1.
  repeat split; reflexivity.
Qed.

(** ** Thermostat functions *)

Lemma slice_to_prefix n s :
  exists rest, s = (Py.slice_to n s ++ rest)%string.
Proof.
  unfold Py.slice_to. revert s.
  induction n as [ | n IH]; intros s.
  - exists s. destruct s; reflexivity.
  - destruct s as [ | c s]; cbn.
    + exists EmptyString. reflexivity.
    + destruct (IH s) as [rest Hrest]. exists rest. now rewrite <- Hrest.
Qed.

Lemma slice_to_length n s :
  String.length (Py.slice_to n s) = Nat.min n (String.length s).
Proof.
  unfold Py.slice_to. revert s.
  induction n as [ | n IH]; intros s.
  - destruct s; reflexivity.
  - destruct s as [ | c s]; cbn; [ reflexivity | now rewrite IH ].
Qed.

(** A call of [post_update] with a non-empty list of functions, for an index
    that names a thermostat with an identifier: one POST goes out, whose
    body is the selection of that thermostat and the functions. *)
Lemma call_post_update_funcs K net index action funcs s thermostat identifier :
  Py.index (thermostats (self s)) index = Return thermostat ->
  Py.getitem thermostat "identifier" = Return identifier ->
  Py.truthy funcs = true ->
  exists rq,
    wire (snd (call_post_update K net index action [("funcs", funcs)] s))
    = (wire s ++ [rq])%list
    /\ json rq
       = PDict [("selection",
                 PDict [("selectionType", PStr "thermostats");
                        ("selectionMatch", identifier)]);
                ("functions", funcs)]
    /\ method rq = "POST".
Proof.
  intros Hth Hid Hfuncs. unfold call_post_update, post_update. run.
  rewrite Hth. cbn. rewrite Hid. cbn. rewrite Hfuncs. cbn.
  answer v s1. destruct Hwire as (rq & Hw & Hbody & _ & Hmethod & _).
  exists rq. destruct v as [v | e]; cbn; [ | destruct (is_token_error e) ];
    repeat split; assumption.
Qed.

(** C6. [send_message], for an index that names a thermostat, sends one
    request whose only function is [sendMessage] with the text [message[:500]]:
    a prefix of the message, of 500 characters, or the whole message when it
    is shorter. *)
Theorem send_message_first_500 :
  forall K net index message s thermostat identifier,
    Py.index (thermostats (self s)) index = Return thermostat ->
    Py.getitem thermostat "identifier" = Return identifier ->
    exists rq text,
      wire (snd (send_message K net index message s)) = (wire s ++ [rq])%list
      /\ json rq
         = PDict [("selection",
                   PDict [("selectionType", PStr "thermostats");
                          ("selectionMatch", identifier)]);
                  ("functions",
                   PList [PDict [("type", PStr "sendMessage");
                                 ("params", PDict [("text", PStr text)])]])]
      /\ text = String.substring 0 500 message
      /\ String.length text = Nat.min 500 (String.length message)
      /\ exists rest, message = (text ++ rest)%string.
Proof.
  intros K net index message s thermostat identifier Hth Hid.
  unfold send_message.
  destruct (call_post_update_funcs K net index "send message"
              (PList [PDict [("type", PStr "sendMessage");
                             ("params",
                              PDict [("text",
                                      PStr (Py.slice_to 500 message))])]])
              s thermostat identifier Hth Hid eq_refl) as (rq & Hw & Hbody & _).
  exists rq, (Py.slice_to 500 message).
  split; [exact Hw | split; [exact Hbody | split; [reflexivity | split]]].
  - apply slice_to_length.
  - apply slice_to_prefix.
Qed.

(** X23. [set_fan_mode], the hold-setting call that reaches [post_update]:
    for an index that names a thermostat it sends one request with a
    [setHold] function whose hold temperatures are ten times the
    temperatures given, with the hold type and the fan mode. *)
Lemma set_fan_mode_scales K net index fan_mode cool_temp heat_temp hold_type s
    thermostat identifier :
  Py.index (thermostats (self s)) index = Return thermostat ->
  Py.getitem thermostat "identifier" = Return identifier ->
  exists rq,
    wire (snd (set_fan_mode K net index fan_mode cool_temp heat_temp hold_type
                 s))
    = (wire s ++ [rq])%list
    /\ json rq
       = PDict [("selection",
                 PDict [("selectionType", PStr "thermostats");
                        ("selectionMatch", identifier)]);
                ("functions",
                 PList
                   [PDict
                      [("type", PStr "setHold");
                       ("params",
                        PDict [("holdType", PStr hold_type);
                               ("coolHoldTemp", PInt (cool_temp * 10));
                               ("heatHoldTemp", PInt (heat_temp * 10));
                               ("fan", PStr fan_mode)])]])].
Proof.
  intros Hth Hid. unfold set_fan_mode.
  match goal with
  | |- context [call_post_update K net index _ [("funcs", ?funcs)] s] =>
      destruct (call_post_update_funcs K net index "set fan mode" funcs s
                  thermostat identifier Hth Hid eq_refl)
        as (rq & Hw & Hbody & _)
  end.
  exists rq. split; assumption.
Qed.

(** C7. [set_hold_temp] should send a [setHold] function with the hold
    temperatures times ten.  It builds that function, then calls
    [post_update] with the keyword [functions], which [post_update] does not
    have: every call raises [TypeError] and sends nothing. *)
Theorem set_hold_temp_raises_TypeError :
  forall K net index cool_temp heat_temp hold_type hold_hours s,
    set_hold_temp K net index cool_temp heat_temp hold_type hold_hours s
    = (Raise TypeError, s).
Proof.
  intros. unfold set_hold_temp, call_post_update.
  destruct (String.eqb hold_type "holdHours"); reflexivity.
Qed.

(** ** What reaches the persisted configuration *)

(** X6. A successful refresh, on a client whose configuration has a home:
    [refresh_tokens] returns true, the configuration persisted afterwards
    holds the new access and refresh tokens next to the API key, the
    authorization code and the flag, and the PIN is left alone. *)
Lemma refresh_tokens_persists K r p access refresh b s :
  distinct_keys K ->
  _file_based_config (self s) = Some b ->
  raises_for_status r = false ->
  response_json r = Some p ->
  Py.getitem p "access_token" = Return access ->
  Py.getitem p "refresh_token" = Return refresh ->
  fst (refresh_tokens K (NetResponse r) s) = Return true
  /\ persisted (snd (refresh_tokens K (NetResponse r) s))
     = Some (PDict
               (config_of K
                  (set_refresh_token refresh
                     (set_access_token access (self s)))))
  /\ pin (self (snd (refresh_tokens K (NetResponse r) s))) = pin (self s).
Proof.
  intros Hd Hb Hok Hp Haccess Hrefresh.
  unfold refresh_tokens. run.
  match goal with
  | |- context [_request K _ ?m ?e ?a ?q ?bd ?auth s] =>
      pose proof (_request_success K r m e a q bd auth s Hok) as Hrun
  end.
  unfold success_payload in Hrun. rewrite Hp in Hrun.
  answer v s1. subst v. cbn.
  rewrite Haccess. cbn. rewrite Hrefresh. cbn.
  match goal with
  | |- context [_write_config K ?s2] =>
      rewrite (_write_config_run K s2 b Hd)
        by (cbn; rewrite Hself; exact Hb)
  end.
  unfold persisted.
  destruct b; cbn; rewrite Hself; cbn; rewrite Hb;
    try rewrite rev_unit; repeat split; reflexivity.
Qed.

(** [request_pin] assigns the authorization code and the PIN and persists
    nothing. *)
Lemma request_pin_persists_nothing K net s :
  persisted (snd (request_pin K net s)) = persisted s.
Proof.
  unfold request_pin. run. answer v s1.
  destruct Hwire as (rq & _ & _ & _ & _ & Hdisk).
  unfold persisted.
  destruct v as [v | e]; cbn; [ | now rewrite Hself, Hdisk ].
  destruct (Py.getitem v "code") as [c | e]; cbn;
    [ destruct (Py.getitem v "ecobeePin") as [p | e]; cbn | ];
    try destruct (is_KeyError_or_TypeError e); cbn;
    now rewrite Hself, Hdisk.
Qed.

(** The PIN of the instance plays no part in a request: with another PIN
    the same request goes out, the same records are logged and the same
    result comes back. *)
Lemma _request_pin_blind K net verb endpoint action query body auth p s :
  _request K net verb endpoint action query body auth (on_self (set_pin p) s)
  = (fst (_request K net verb endpoint action query body auth s),
     on_self (set_pin p)
       (snd (_request K net verb endpoint action query body auth s))).
Proof.
  unfold _request, on_HTTPError, on_self. run.
  destruct net as [ | | r | r fault]; cbn; try reflexivity;
    [ | destruct (raises_for_status r); reflexivity ].
  destruct (raises_for_status r); cbn;
    [ | destruct (response_json r); reflexivity ].
  destruct (response_json r) as [payload | ]; cbn;
    repeat (fork; cbn; try reflexivity).
Qed.

Lemma _write_config_pin_blind K p s :
  _write_config K (on_self (set_pin p) s)
  = (fst (_write_config K s), on_self (set_pin p) (snd (_write_config K s))).
Proof.
  unfold _write_config, on_self. run.
  destruct (_file_based_config (self s)) as [[ | ] | ]; reflexivity.
Qed.

(** Replacing the PIN before a method runs changes nothing of what the
    method leaves behind, except the PIN itself when the method does not
    assign it. *)
Lemma perform_pin_blind K dumps cb net op p s :
  perform K dumps cb net op (on_self (set_pin p) s)
  = perform K dumps cb net op s
  \/ perform K dumps cb net op (on_self (set_pin p) s)
     = on_self (set_pin p) (perform K dumps cb net op s).
Proof.
  destruct op; unfold perform.
  - unfold request_pin. run. rewrite !_request_pin_blind. cbn.
    destruct (_request K net _ _ _ _ _ _ s) as [[v | e] s1]; cbn;
      [ | right; reflexivity ].
    destruct (Py.getitem v "code") as [c | e]; cbn;
      [ destruct (Py.getitem v "ecobeePin") as [x | e]; cbn | ];
      try destruct (is_KeyError_or_TypeError e); cbn;
      first [ left; reflexivity | right; reflexivity ].
  - unfold request_tokens, _write_config. run. rewrite !_request_pin_blind.
    cbn.
    destruct (_request K net _ _ _ _ _ _ s) as [[v | e] s1]; cbn;
      [ | right; reflexivity ].
    destruct (Py.getitem v "access_token") as [c | e]; cbn;
      [ destruct (Py.getitem v "refresh_token") as [x | e]; cbn;
        [ destruct (_file_based_config (self s1)) as [[ | ] | ]; cbn | ]
      | ];
      try destruct (is_KeyError_or_TypeError e); cbn;
      first [ left; reflexivity | right; reflexivity ].
  - unfold refresh_tokens, _write_config. run. rewrite !_request_pin_blind.
    cbn.
    destruct (_request K net _ _ _ _ _ _ s) as [[v | e] s1]; cbn;
      [ | right; reflexivity ].
    destruct (Py.getitem v "access_token") as [c | e]; cbn;
      [ destruct (Py.getitem v "refresh_token") as [x | e]; cbn;
        [ destruct (_file_based_config (self s1)) as [[ | ] | ]; cbn | ]
      | ];
      try destruct (is_KeyError_or_TypeError e); cbn;
      first [ left; reflexivity | right; reflexivity ].
  - unfold get_thermostats. run. rewrite !_request_pin_blind. cbn.
    destruct (_request K net _ _ _ _ _ _ s) as [[v | e] s1]; cbn;
      [ | right; reflexivity ].
    destruct (Py.getitem v "thermostatList") as [c | e]; cbn;
      try destruct (is_KeyError_or_TypeError e); cbn;
      right; reflexivity.
  - unfold call_post_update.
    destruct (forallb _ kwargs); [ | right; reflexivity ].
    unfold post_update. run.
    destruct (Py.index (thermostats (self s)) index) as [t | e]; cbn;
      [ | right; reflexivity ].
    destruct (Py.getitem t "identifier") as [ident | e]; cbn;
      [ | right; reflexivity ].
    rewrite !_request_pin_blind. cbn.
    destruct (_request K net _ _ _ _ _ _ s) as [[v | e] s1]; cbn;
      try destruct (is_token_error e); right; reflexivity.
  - right. rewrite _write_config_pin_blind. reflexivity.
  - right. unfold read_config_from_file, _load_config. run.
    destruct (_file_based_config (self s)) as [[ | ] | ]; cbn;
      try reflexivity.
    repeat (fork; cbn; try reflexivity).
Qed.

(** The same for a sequence of methods: the persisted configuration it
    leaves does not depend on the PIN at its start. *)
Lemma perform_all_pin_blind K dumps cb steps p s :
  persisted (perform_all K dumps cb steps (on_self (set_pin p) s))
  = persisted (perform_all K dumps cb steps s).
Proof.
  assert (Hrel : forall steps s t,
             t = s \/ t = on_self (set_pin p) s ->
             persisted (perform_all K dumps cb steps t)
             = persisted (perform_all K dumps cb steps s)).
  { clear steps s. induction steps as [ | [net op] rest IH]; intros s t Hst.
    - destruct Hst as [-> | ->]; reflexivity.
    - cbn [perform_all]. apply IH.
      destruct Hst as [-> | ->]; [ left; reflexivity | ].
      apply perform_pin_blind. }
  apply Hrel. right. reflexivity.
Qed.

(** The part of a token exchange after its request. *)
Ltac exchange_persists K Hd :=
  run;
  let v := fresh "v" in
  let s1 := fresh "s1" in
  let Hdisk := fresh "Hdisk" in
  let Hb := fresh "Hb" in
  answer v s1;
  match goal with
  | Hw : exists rq, _ |- _ => destruct Hw as (?rq & _ & _ & _ & _ & Hdisk)
  end;
  match goal with
  | Hs : self s1 = self ?s |- _ =>
      destruct v as [v | ?e]; cbn;
      [ | left; unfold persisted; cbn; now rewrite Hs, Hdisk ];
      destruct (Py.getitem v "access_token") as [?a | ?e]; cbn;
      [ | match goal with
          | |- context [is_KeyError_or_TypeError ?err] =>
              destruct (is_KeyError_or_TypeError err)
          end; cbn; left; unfold persisted; cbn; now rewrite Hs, Hdisk ];
      destruct (Py.getitem v "refresh_token") as [?x | ?e]; cbn;
      [ | match goal with
          | |- context [is_KeyError_or_TypeError ?err] =>
              destruct (is_KeyError_or_TypeError err)
          end; cbn; left; unfold persisted; cbn; now rewrite Hs, Hdisk ];
      destruct (_file_based_config (self s)) as [[ | ] | ] eqn:Hb;
      [ match goal with
        | |- context [_write_config K ?s2] =>
            rewrite (_write_config_run K s2 true Hd)
              by (cbn; rewrite Hs; exact Hb)
        end;
        right; unfold persisted; cbn; rewrite Hs; cbn; rewrite Hb;
        rewrite rev_unit; reflexivity
      | match goal with
        | |- context [_write_config K ?s2] =>
            rewrite (_write_config_run K s2 false Hd)
              by (cbn; rewrite Hs; exact Hb)
        end;
        right; unfold persisted; cbn; rewrite Hs; cbn; rewrite Hb;
        reflexivity
      | match goal with
        | |- context [_write_config K ?s2] =>
            replace (_write_config K s2) with (@Raise unit AttributeError, s2)
              by (unfold _write_config; run; now rewrite Hs, Hb)
        end;
        cbn; left; unfold persisted; cbn; now rewrite Hs, Hdisk ]
  end.

(** What a method leaves persisted is what was persisted before it, or the
    five entries [_write_config] makes of the instance. *)
Lemma perform_persists K dumps cb net op s :
  distinct_keys K ->
  persisted (perform K dumps cb net op s) = persisted s
  \/ persisted (perform K dumps cb net op s)
     = Some (PDict (config_of K (self (perform K dumps cb net op s)))).
Proof.
  intros Hd. destruct op; unfold perform.
  - left. apply request_pin_persists_nothing.
  - unfold request_tokens. exchange_persists K Hd.
  - unfold refresh_tokens. exchange_persists K Hd.
  - left. unfold get_thermostats. run. answer v s1.
    destruct Hwire as (rq & _ & _ & _ & _ & Hdisk).
    unfold persisted.
    destruct v as [v | e]; cbn; [ | now rewrite Hself, Hdisk ].
    destruct (Py.getitem v "thermostatList") as [l | e]; cbn;
      try destruct (is_KeyError_or_TypeError e); cbn;
      now rewrite Hself, Hdisk.
  - left. unfold call_post_update.
    destruct (forallb _ kwargs); [ | reflexivity ].
    unfold post_update. run.
    destruct (Py.index (thermostats (self s)) index) as [t | e]; cbn;
      [ | reflexivity ].
    destruct (Py.getitem t "identifier") as [ident | e]; cbn;
      [ | reflexivity ].
    answer v s1. destruct Hwire as (rq & _ & _ & _ & _ & Hdisk).
    unfold persisted.
    destruct v as [v | e]; cbn; try destruct (is_token_error e); cbn;
      now rewrite Hself, Hdisk.
  - destruct (_file_based_config (self s)) as [b | ] eqn:Hb.
    + right. rewrite (_write_config_run K s b Hd Hb).
      unfold persisted. destruct b; cbn; rewrite Hb;
        try rewrite rev_unit; reflexivity.
    + left. unfold _write_config. run. now rewrite Hb.
  - left. unfold read_config_from_file, _load_config, persisted. run.
    destruct (_file_based_config (self s)) as [[ | ] | ] eqn:Hb; cbn;
      try (rewrite Hb; reflexivity).
    repeat (fork; cbn; try (rewrite Hb; reflexivity)).
Qed.

(** C10. [_write_config] persists exactly five entries: the API key, the
    access token, the refresh token, the authorization code and the
    notifications flag as the string [True] or [False], under the five key
    names.  No method writes the PIN: what [_write_config] persists is the
    same whatever the PIN is; the call that obtains the PIN persists
    nothing; after any sequence of methods ([request_pin],
    [request_tokens], [refresh_tokens], [get_thermostats], [post_update]
    and with it every thermostat function, [_write_config],
    [read_config_from_file]) the persisted configuration is the same
    whatever the PIN was at the start; and what a method leaves persisted
    is what was persisted before it or the five entries made of the
    instance. *)
Theorem write_config_five_keys_no_pin :
  forall K s b,
    distinct_keys K ->
    _file_based_config (self s) = Some b ->
    fst (_write_config K s) = Return tt
    /\ persisted (snd (_write_config K s))
       = Some (PDict
                 [(ECOBEE_API_KEY K, api_key (self s));
                  (ECOBEE_ACCESS_TOKEN K, access_token (self s));
                  (ECOBEE_REFRESH_TOKEN K, refresh_token (self s));
                  (ECOBEE_AUTHORIZATION_CODE K, authorization_code (self s));
                  (ECOBEE_OPTIONS_NOTIFICATIONS K,
                   PStr (if include_notifications (self s)
                         then "True" else "False"))])
    /\ (forall p,
          persisted (snd (_write_config K (on_self (set_pin p) s)))
          = persisted (snd (_write_config K s)))
    /\ (forall net, persisted (snd (request_pin K net s)) = persisted s)
    /\ (forall dumps cb steps p,
          persisted (perform_all K dumps cb steps (on_self (set_pin p) s))
          = persisted (perform_all K dumps cb steps s))
    /\ (forall dumps cb net op,
          persisted (perform K dumps cb net op s) = persisted s
          \/ persisted (perform K dumps cb net op s)
             = Some (PDict
                       (config_of K (self (perform K dumps cb net op s))))).
Proof.
  intros K s b Hd Hb.
  rewrite (_write_config_run K s b Hd Hb).
  split; [reflexivity | split; [ | split; [ | split; [ | split ] ] ] ].
  - unfold persisted. destruct b; cbn; rewrite Hb.
    + rewrite rev_unit. reflexivity.
    + reflexivity.
  - intros p.
    rewrite (_write_config_run K (on_self (set_pin p) s) b Hd Hb).
    unfold persisted. destruct b; cbn; rewrite Hb.
    + rewrite !rev_unit. reflexivity.
    + reflexivity.
  - intros net. apply request_pin_persists_nothing.
  - intros dumps cb steps p. apply perform_all_pin_blind.
  - intros dumps cb net op. apply perform_persists. exact Hd.
Qed.

(** ** Concrete runs *)

Lemma sample_keys_distinct : distinct_keys sample_const.
Proof.
  unfold distinct_keys. repeat constructor; cbn; intuition discriminate.
Qed.

(** A timeout is not a success payload. *)
Lemma timeout_is_no_success : forall v, ~ fetch_success NetTimeout v.
Proof. intros v (r & p & Hnet & _). discriminate. Qed.

(** An authorization request answered 400 with a body the parser rejects
    with [JSONDecodeError]. *)
Lemma unparsable_error_body_witness :
  raises_for_status (error_response 400 None) = true
  /\ response_json (error_response 400 None) = None
  /\ on_HTTPError (error_response 400 None) "request tokens" true fresh_client
     = (_LOGGER_debug [Lit "Invalid JSON payload received"] ;;
        on_HTTPError (with_json (Some (PDict [])) (error_response 400 None))
          "request tokens" true) fresh_client
  /\ absorbed fresh_client
       (_request sample_const (NetResponse (error_response 400 None)) "POST"
          "token" "request tokens" PNone PNone true fresh_client)
  /\ fst (_request sample_const (NetResponse (error_response 400 None)) "POST"
            "token" "request tokens" PNone PNone true fresh_client)
     = fst (_request sample_const
              (NetResponse
                 (with_json (Some (PDict [])) (error_response 400 None)))
              "POST" "token" "request tokens" PNone PNone true fresh_client).
Proof.
  split; [reflexivity | split; [reflexivity | ]].
  apply (unparsable_error_body_is_empty_object sample_const
           (error_response 400 None) "POST" "token" "request tokens" PNone
           PNone true fresh_client); reflexivity.
Defined.

(** The handshake of the specification: [AUTH123] and [ABCD-EFGH], then
    [AT1] and [RT1]. *)
Lemma request_pin_then_request_tokens_witness :
  distinct_keys sample_const
  /\ _file_based_config (self fresh_client) = Some false
  /\ fst (request_pin sample_const (NetResponse (ok_response pin_payload))
            fresh_client) = Return true
  /\ pin (self (snd (request_pin sample_const
                       (NetResponse (ok_response pin_payload)) fresh_client)))
     = PStr "ABCD-EFGH"
  /\ fst (request_tokens sample_const (NetResponse (ok_response token_payload))
            (snd (request_pin sample_const
                    (NetResponse (ok_response pin_payload)) fresh_client)))
     = Return true
  /\ persisted
       (snd (request_tokens sample_const
               (NetResponse (ok_response token_payload))
               (snd (request_pin sample_const
                       (NetResponse (ok_response pin_payload)) fresh_client))))
     = Some (PDict [("API_KEY", PStr "KEY0");
                    ("ACCESS_TOKEN", PStr "AT1");
                    ("REFRESH_TOKEN", PStr "RT1");
                    ("AUTHORIZATION_CODE", PStr "AUTH123");
                    ("INCLUDE_NOTIFICATIONS", PStr "False")])
  /\ pin (self (snd (request_tokens sample_const
                       (NetResponse (ok_response token_payload))
                       (snd (request_pin sample_const
                               (NetResponse (ok_response pin_payload))
                               fresh_client)))))
     = PNone.
Proof.
  split; [exact sample_keys_distinct | split; [reflexivity | ]].
  destruct (request_pin_then_request_tokens sample_const
              (ok_response pin_payload) (ok_response token_payload)
              pin_payload token_payload (PStr "AUTH123") (PStr "ABCD-EFGH")
              (PStr "AT1") (PStr "RT1") false fresh_client
              sample_keys_distinct eq_refl eq_refl eq_refl eq_refl eq_refl
              eq_refl eq_refl eq_refl eq_refl)
    as (H1 & H2 & H3 & H4 & _ & _ & _ & H5).
  repeat split; assumption.
Defined.

(** C4, as stated, fails: a success payload with [code] and without
    [ecobeePin] makes [request_pin] return false after it has replaced the
    authorization code. *)
Lemma request_pin_code_without_pin_changes_state :
  raises_for_status (ok_response code_only_payload) = false
  /\ Py.getitem code_only_payload "ecobeePin" = Raise KeyError
  /\ fst (request_pin sample_const (NetResponse (ok_response code_only_payload))
            fresh_client) = Return false
  /\ authorization_code (self fresh_client) = PNone
  /\ authorization_code
       (self (snd (request_pin sample_const
                     (NetResponse (ok_response code_only_payload))
                     fresh_client)))
     = PStr "AUTH123"
  /\ authorization_code
       (self (snd (request_pin sample_const
                     (NetResponse (ok_response code_only_payload))
                     fresh_client)))
     <> authorization_code (self fresh_client).
Proof.
  repeat split; try reflexivity. discriminate.
Qed.

Lemma request_pin_malformed_payload_witness :
  raises_for_status (ok_response code_only_payload) = false
  /\ (forall v,
        Py.getitem (success_payload (ok_response code_only_payload))
          "ecobeePin" <> Return v)
  /\ fst (request_pin sample_const (NetResponse (ok_response code_only_payload))
            fresh_client) = Return false
  /\ pin (self (snd (request_pin sample_const
                       (NetResponse (ok_response code_only_payload))
                       fresh_client)))
     = pin (self fresh_client)
  /\ self (snd (request_pin sample_const
                  (NetResponse (ok_response code_only_payload)) fresh_client))
     = set_authorization_code (PStr "AUTH123") (self fresh_client).
Proof.
  assert (Hmiss : forall v,
             Py.getitem (success_payload (ok_response code_only_payload))
               "ecobeePin" <> Return v) by (intros v; discriminate).
  split; [reflexivity | split; [exact Hmiss | ]].
  destruct (request_pin_malformed_payload sample_const
              (ok_response code_only_payload) fresh_client eq_refl
              (or_intror Hmiss)) as (H1 & H2 & _ & _ & _ & H3).
  split; [exact H1 | split; [exact H2 | ]].
  apply H3. reflexivity.
Defined.

(** C5, as stated, fails: the 500 of an expired access token makes
    [get_thermostats] raise [ExpiredTokenError] instead of returning false. *)
Lemma get_thermostats_expired_token_propagates :
  (forall v, ~ fetch_success (NetResponse expired_response) v)
  /\ fst (get_thermostats sample_const sample_dumps
            (NetResponse expired_response) client_with_thermostat)
     = Raise token_expired
  /\ fst (get_thermostats sample_const sample_dumps
            (NetResponse expired_response) client_with_thermostat)
     <> Return false.
Proof.
  split; [ | split; [reflexivity | discriminate] ].
  intros v (r & p & Hnet & Hok & _). injection Hnet as <-. discriminate.
Qed.

(** A timeout during a fetch: the cache keeps its thermostat. *)
Lemma get_thermostats_without_success_witness :
  (forall v, ~ fetch_success NetTimeout v)
  /\ self (snd (get_thermostats sample_const sample_dumps NetTimeout
                  client_with_thermostat))
     = self client_with_thermostat
  /\ fst (get_thermostats sample_const sample_dumps NetTimeout
            client_with_thermostat)
     = Return false.
Proof.
  split; [exact timeout_is_no_success | ].
  destruct (get_thermostats_without_success sample_const sample_dumps
              NetTimeout client_with_thermostat timeout_is_no_success)
    as (H1 & H2 & _).
  split; [exact H1 | apply H2; left; reflexivity].
Defined.

Lemma get_thermostats_twice_witness :
  raises_for_status (ok_response thermostat_payload) = false
  /\ Py.getitem thermostat_payload "thermostatList"
     = Return (PList [PDict [("identifier", PStr "411955544321")]])
  /\ thermostats
       (self (snd (get_thermostats sample_const sample_dumps
                     (NetResponse (ok_response thermostat_payload))
                     fresh_client)))
     = PList [PDict [("identifier", PStr "411955544321")]]
  /\ thermostats
       (self (snd (get_thermostats sample_const sample_dumps
                     (NetResponse (ok_response thermostat_payload))
                     (snd (get_thermostats sample_const sample_dumps
                             (NetResponse (ok_response thermostat_payload))
                             fresh_client)))))
     = PList [PDict [("identifier", PStr "411955544321")]].
Proof.
  split; [reflexivity | split; [reflexivity | ]].
  destruct (get_thermostats_twice sample_const sample_dumps
              (ok_response thermostat_payload) (ok_response thermostat_payload)
              thermostat_payload
              (PList [PDict [("identifier", PStr "411955544321")]])
              fresh_client eq_refl eq_refl eq_refl eq_refl eq_refl)
    as (_ & H1 & _ & H2 & _).
  split; [exact H1 | exact H2].
Defined.

(** A message of 600 characters is cut to its first 500. *)
Lemma send_message_first_500_witness :
  Py.index (thermostats (self client_with_thermostat)) 0
  = Return (PDict [("identifier", PStr "411955544321");
                   ("name", PStr "Hallway")])
  /\ String.length message600 = 600%nat
  /\ exists rq text,
       wire (snd (send_message sample_const NetTimeout 0 message600
                    client_with_thermostat))
       = (wire client_with_thermostat ++ [rq])%list
       /\ json rq
          = PDict [("selection",
                    PDict [("selectionType", PStr "thermostats");
                           ("selectionMatch", PStr "411955544321")]);
                   ("functions",
                    PList [PDict [("type", PStr "sendMessage");
                                  ("params", PDict [("text", PStr text)])]])]
       /\ text = String.substring 0 500 message600
       /\ String.length text = Nat.min 500 (String.length message600)
       /\ exists rest, message600 = (text ++ rest)%string.
Proof.
  split; [reflexivity | split; [reflexivity | ]].
  apply (send_message_first_500 sample_const NetTimeout 0 message600
           client_with_thermostat
           (PDict [("identifier", PStr "411955544321");
                   ("name", PStr "Hallway")])
           (PStr "411955544321")); reflexivity.
Defined.

Example message600_first_500 :
  String.substring 0 500 message600 = repeat_string 50 "0123456789"
  /\ String.length (String.substring 0 500 message600) = 500%nat.
Proof. split; reflexivity. Qed.

(** 78 and 68 degrees go out as 780 and 680 from [set_fan_mode]; the same
    call of [set_hold_temp] sends nothing. *)
Example hold_78_68 :
  map json
    (wire (snd (set_fan_mode sample_const NetTimeout 0 "auto" 78 68
                  "nextTransition" client_with_thermostat)))
  = [PDict [("selection",
             PDict [("selectionType", PStr "thermostats");
                    ("selectionMatch", PStr "411955544321")]);
            ("functions",
             PList [PDict [("type", PStr "setHold");
                           ("params",
                            PDict [("holdType", PStr "nextTransition");
                                   ("coolHoldTemp", PInt 780);
                                   ("heatHoldTemp", PInt 680);
                                   ("fan", PStr "auto")])]])]]
  /\ set_hold_temp sample_const NetTimeout 0 78 68 "nextTransition" "2"
       client_with_thermostat
     = (Raise TypeError, client_with_thermostat).
Proof. split; reflexivity. Qed.

(** A client that holds the PIN [ABCD-EFGH]: neither [_write_config] nor a
    refresh writes it, and a refresh persists the same whatever the PIN. *)
Lemma write_config_five_keys_no_pin_witness :
  distinct_keys sample_const
  /\ _file_based_config (self client_with_pin) = Some false
  /\ pin (self client_with_pin) = PStr "ABCD-EFGH"
  /\ persisted (snd (_write_config sample_const client_with_pin))
     = Some (PDict [("API_KEY", PStr "KEY0"); ("ACCESS_TOKEN", PNone);
                    ("REFRESH_TOKEN", PNone);
                    ("AUTHORIZATION_CODE", PStr "AUTH123");
                    ("INCLUDE_NOTIFICATIONS", PStr "False")])
  /\ persisted
       (perform_all sample_const sample_dumps sample_convert
          [(NetResponse (ok_response token_payload), RefreshTokens)]
          (on_self (set_pin (PStr "0000-0000")) client_with_pin))
     = persisted
         (perform_all sample_const sample_dumps sample_convert
            [(NetResponse (ok_response token_payload), RefreshTokens)]
            client_with_pin)
  /\ persisted
       (perform_all sample_const sample_dumps sample_convert
          [(NetResponse (ok_response token_payload), RefreshTokens)]
          client_with_pin)
     = Some (PDict [("API_KEY", PStr "KEY0"); ("ACCESS_TOKEN", PStr "AT1");
                    ("REFRESH_TOKEN", PStr "RT1");
                    ("AUTHORIZATION_CODE", PStr "AUTH123");
                    ("INCLUDE_NOTIFICATIONS", PStr "False")]).
Proof.
  split; [exact sample_keys_distinct | split; [reflexivity | ]].
  destruct (write_config_five_keys_no_pin sample_const client_with_pin false
              sample_keys_distinct eq_refl) as (_ & H1 & _ & _ & H2 & _).
  split; [ reflexivity | split; [ exact H1 | split; [ | reflexivity ] ] ].
  exact (H2 sample_dumps sample_convert
           [(NetResponse (ok_response token_payload), RefreshTokens)]
           (PStr "0000-0000")).
Defined.

(** ** More on requests *)

Lemma _request_sends :
  forall K net verb endpoint action query body auth s,
    self (snd (_request K net verb endpoint action query body auth s)) = self s
    /\ disk (snd (_request K net verb endpoint action query body auth s))
       = disk s
    /\ wire (snd (_request K net verb endpoint action query body auth s))
       = (wire s
          ++ [{| method := verb;
                 url :=
                   if auth then ECOBEE_BASE_URL K ++ "/" ++ endpoint
                   else ECOBEE_BASE_URL K ++ "/" ++ ECOBEE_API_VERSION K
                        ++ "/" ++ endpoint;
                 headers :=
                   if auth then []
                   else [("Content-Type",
                          [Lit "application/json;charset=UTF-8"]);
                         ("Authorization",
                          [Lit "Bearer "; Fmt (access_token (self s))])];
                 params := query;
                 json := body;
                 timeout := ECOBEE_DEFAULT_TIMEOUT K |}])%list.
Proof.
  intros. split; [ apply _request_self | ].
  unfold _request; run.
  destruct net as [ | | r | r fault]; cbn; try (split; reflexivity);
    [ | destruct (raises_for_status r); split; reflexivity ].
  destruct (raises_for_status r); cbn.
  - match goal with
    | |- context [on_HTTPError r action auth ?s1] =>
        pose proof (on_HTTPError_wire r action auth s1) as [Hw Hd];
        destruct (on_HTTPError r action auth s1) as [[u | e] s2]
    end; cbn in *; rewrite Hw, Hd; split; reflexivity.
  - destruct (response_json r); split; reflexivity.
Qed.

(** X1. Whatever the network answers, and whether or not an exception leaves
    it, [_request] sends exactly one request and never a second one, leaves
    the instance and the disk alone, and builds the request from its
    arguments: in the authorization flow the URL has no API version and there
    are no headers, so the access token is not sent; outside it the access
    token travels in the [Authorization] header. *)
Theorem request_footprint :
  forall K net verb endpoint action query body auth s,
    self (snd (_request K net verb endpoint action query body auth s)) = self s
    /\ disk (snd (_request K net verb endpoint action query body auth s))
       = disk s
    /\ wire (snd (_request K net verb endpoint action query body auth s))
       = (wire s
          ++ [{| method := verb;
                 url :=
                   if auth then ECOBEE_BASE_URL K ++ "/" ++ endpoint
                   else ECOBEE_BASE_URL K ++ "/" ++ ECOBEE_API_VERSION K
                        ++ "/" ++ endpoint;
                 headers :=
                   if auth then []
                   else [("Content-Type",
                          [Lit "application/json;charset=UTF-8"]);
                         ("Authorization",
                          [Lit "Bearer "; Fmt (access_token (self s))])];
                 params := query;
                 json := body;
                 timeout := ECOBEE_DEFAULT_TIMEOUT K |}])%list.
Proof.
  exact _request_sends.
Qed.

(** X2. An exception leaves [_request] in two ways only.  Either
    [response.json()] raised it, an exception of a class other than
    [JSONDecodeError], which no clause of [_request] catches, whatever the
    status and the flow.  Or the response is an HTTP error with the status
    the flow inspects, 400 in the authorization flow and 500 outside it, and
    the exception is the invalid-token error, the expired-token error
    (outside the authorization flow only), or the [AttributeError] of a body
    that parsed to something unexpected. *)
Theorem request_exceptions :
  forall K net verb endpoint action query body auth s e,
    fst (_request K net verb endpoint action query body auth s) = Raise e ->
    (exists r, net = NetResponseFault r e)
    \/ exists r,
         net = NetResponse r
         /\ raises_for_status r = true
         /\ status_code r = (if auth then 400 else 500)
         /\ (e = tokens_invalid
             \/ (e = token_expired /\ auth = false)
             \/ (e = AttributeError /\ exists p, response_json r = Some p)).
Proof.
  intros K net verb endpoint action query body auth s e H.
  unfold _request, on_HTTPError in H. run.
  destruct net as [ | | r | r fault]; try discriminate;
    [ right
    | left; exists r; destruct (raises_for_status r); cbn in H;
      injection H as <-; reflexivity ].
  exists r. split; [ reflexivity | ].
  destruct (raises_for_status r) eqn:Hbad;
    [ | destruct (response_json r); discriminate ].
  split; [ reflexivity | ]. cbn in H.
  destruct auth.
  - destruct (status_code r =? 400) eqn:H400;
      [ | destruct (response_json r); discriminate ].
    apply Z.eqb_eq in H400. split; [ exact H400 | ].
    destruct (response_json r) as [p | ]; cbn in H; [ | discriminate ].
    destruct p; cbn in H;
      try (injection H as <-; right; right; split; [ reflexivity | eauto ]).
    destruct (Py.eq_str _ "invalid_grant"); cbn in H;
      [ injection H as <-; left; reflexivity | discriminate ].
  - destruct (status_code r =? 500) eqn:H500;
      [ | destruct (response_json r); discriminate ].
    apply Z.eqb_eq in H500. split; [ exact H500 | ].
    destruct (response_json r) as [p | ]; cbn in H; [ | discriminate ].
    destruct p; cbn in H;
      try (injection H as <-; right; right; split; [ reflexivity | eauto ]).
    destruct (Py.lookup "status" d) as [st | ]; cbn in H.
    + destruct st; cbn in H;
        try (injection H as <-; right; right; split; [ reflexivity | eauto ]).
      destruct (Py.eq_int _ 1 || (Py.eq_int _ 16 || false)); cbn in H;
        [ injection H as <-; left; reflexivity | ].
      destruct (Py.eq_int _ 14); cbn in H;
        [ injection H as <-; right; left; split; reflexivity | discriminate ].
    + discriminate.
Qed.

(** X3. Outside the authorization flow, a 500 whose payload is an object (or
    unreadable) and whose [status] member is absent or an object: a
    [status.code] equal to 1 or 16 raises the invalid-token error, one equal
    to 14 the expired-token error, and any other or absent code is absorbed:
    [None] is returned, an error is logged, the instance is untouched. *)
Theorem api_500_classification :
  forall K r verb endpoint action query body s st code,
    status_code r = 500 ->
    Py.get (error_payload r) "status" (PDict []) = Return st ->
    Py.get st "code" PNone = Return code ->
    if Py.in_ints code [1; 16]
    then fst (_request K (NetResponse r) verb endpoint action query body
                false s) = Raise tokens_invalid
    else if Py.eq_int code 14
    then fst (_request K (NetResponse r) verb endpoint action query body
                false s) = Raise token_expired
    else absorbed s
           (_request K (NetResponse r) verb endpoint action query body false s).
Proof.
  intros K r verb endpoint action query body s st code H500 Hst Hcode.
  assert (Hbad : raises_for_status r = true)
    by (unfold raises_for_status; rewrite H500; reflexivity).
  exact (_request_api_error K r verb endpoint action query body s st code
           Hbad H500 Hst Hcode).
Qed.

Lemma _request_absorbed_answer K net verb endpoint action query body auth s :
  absorbed_answer auth net ->
  absorbed s (_request K net verb endpoint action query body auth s).
Proof.
  intros [H | [H | [H | (r & -> & Hbad & Hstatus)]]];
    try (apply _request_transport_failure; tauto).
  destruct auth.
  - pose proof (_request_auth_error K r verb endpoint action query body s
                  PNone Hbad) as H.
    apply Z.eqb_neq in Hstatus. cbv zeta in H. rewrite Hstatus in H.
    apply H. left. reflexivity.
  - apply _request_other_error; assumption.
Qed.

(** X4. [_request] absorbs a timeout and a connection error, and, among the
    responses on which [response.json()] returns or raises
    [JSONDecodeError], a success status with [JSONDecodeError] and every
    HTTP error whose status is not the one the flow inspects, whatever the
    body parsed to: it returns [None], logs an error and leaves the instance
    untouched. *)
Theorem request_absorbs :
  forall K net verb endpoint action query body auth s,
    absorbed_answer auth net ->
    absorbed s (_request K net verb endpoint action query body auth s).
Proof.
  intros. now apply _request_absorbed_answer.
Qed.

(** X5. In the authorization flow an HTTP error raises the invalid-token
    error exactly when the status is 400 and the payload is an object whose
    [error] member is the string [invalid_grant]. *)
Theorem auth_invalid_token_iff :
  forall K r verb endpoint action query body s,
    raises_for_status r = true ->
    fst (_request K (NetResponse r) verb endpoint action query body true s)
    = Raise tokens_invalid
    <-> status_code r = 400
        /\ exists d,
             response_json r = Some (PDict d)
             /\ Py.lookup "error" d = Some (PStr "invalid_grant").
Proof.
  intros K r verb endpoint action query body s Hbad.
  rewrite (_request_auth_invalid_iff K r verb endpoint action query body s
             Hbad).
  unfold error_payload.
  split; intros [H400 H]; (split; [ exact H400 | ]).
  - destruct (response_json r) as [p | ]; [ | discriminate ].
    destruct p; try discriminate. exists d. split; [ reflexivity | ].
    cbn in H. destruct (Py.lookup "error" d); congruence.
  - destruct H as (d & -> & Hd). cbn. now rewrite Hd.
Qed.

(** ** More on the handshake *)

(** Run a handshake method on a success response up to the payload. *)
Ltac on_success_payload K r Hok :=
  run;
  match goal with
  | |- context [_request K _ ?m ?e ?a ?q ?bd ?auth ?s0] =>
      let Hrun := fresh "Hrun" in
      pose proof (_request_success K r m e a q bd auth s0 Hok) as Hrun
  end.

Ltac exchange_fails_proof K r Hok Hmiss :=
  on_success_payload K r Hok;
  let v := fresh "v" in
  let s1 := fresh "s1" in
  let Hdisk := fresh "Hdisk" in
  let a := fresh "a" in
  let Ha := fresh "Ha" in
  let x := fresh "token" in
  let Hx := fresh "Htoken" in
  let Hno := fresh "Hno" in
  answer v s1; subst v; cbn;
  match goal with
  | Hw : exists rq, _ |- _ => destruct Hw as (?rq & _ & _ & _ & _ & Hdisk)
  end;
  destruct (Py.getitem (success_payload r) "access_token") as [a | ?e]
    eqn:Ha; cbn;
  [ destruct Hmiss as [Hmiss | Hmiss]; [ now elim (Hmiss a) | ];
    destruct (Py.getitem (success_payload r) "refresh_token") as [x | ?e]
      eqn:Hx; cbn; [ now elim (Hmiss x) | ];
    rewrite (getitem_raises _ _ _ Hx); cbn;
    unfold persisted; cbn;
    match goal with Hs : self _ = self _ |- _ => rewrite Hs end;
    rewrite Hdisk;
    repeat split; try reflexivity;
    [ intros Hno; now elim (Hno a) | intros ? [= <-]; reflexivity ]
  | rewrite (getitem_raises _ _ _ Ha); cbn;
    unfold persisted; cbn;
    match goal with Hs : self _ = self _ |- _ => rewrite Hs end;
    rewrite Hdisk;
    repeat split; try reflexivity; intros ? [=] ].

(** X7. A token exchange ([request_tokens] or [refresh_tokens]) answered
    with a success status and a payload that lacks [access_token] or
    [refresh_token] returns false and persists nothing.  When the payload has
    an access token and no refresh token, the access token of the instance
    has already been replaced, so that it differs from the persisted one;
    otherwise the instance is as before. *)
Theorem token_exchange_malformed_payload :
  forall K r s,
    raises_for_status r = false ->
    (forall v, Py.getitem (success_payload r) "access_token" <> Return v)
    \/ (forall v, Py.getitem (success_payload r) "refresh_token" <> Return v) ->
    exchange_fails (success_payload r) s (request_tokens K (NetResponse r) s)
    /\ exchange_fails (success_payload r) s
         (refresh_tokens K (NetResponse r) s).
Proof.
  intros K r s Hok Hmiss. split.
  - unfold exchange_fails, request_tokens.
    exchange_fails_proof K r Hok Hmiss.
  - unfold exchange_fails, refresh_tokens.
    exchange_fails_proof K r Hok Hmiss.
Qed.

Lemma _write_config_wire K s :
  wire (snd (_write_config K s)) = wire s.
Proof.
  unfold _write_config. run.
  destruct (_file_based_config (self s)) as [[ | ] | ]; reflexivity.
Qed.

(** X8. When the service answers a handshake call with a 400 whose [error]
    is [invalid_grant], the call raises the invalid-token error and changes
    neither the instance nor the disk: tokens and PIN stay as they were. *)
Theorem handshake_invalid_grant :
  forall K r d s,
    status_code r = 400 ->
    response_json r = Some (PDict d) ->
    Py.lookup "error" d = Some (PStr "invalid_grant") ->
    (fst (request_pin K (NetResponse r) s) = Raise tokens_invalid
     /\ untouched s (request_pin K (NetResponse r) s))
    /\ (fst (request_tokens K (NetResponse r) s) = Raise tokens_invalid
        /\ untouched s (request_tokens K (NetResponse r) s))
    /\ (fst (refresh_tokens K (NetResponse r) s) = Raise tokens_invalid
        /\ untouched s (refresh_tokens K (NetResponse r) s)).
Proof.
  intros K r d s H400 Hjson Herror.
  assert (Hbad : raises_for_status r = true)
    by (unfold raises_for_status; rewrite H400; reflexivity).
  assert (Hraise : forall verb endpoint action query body,
             fst (_request K (NetResponse r) verb endpoint action query body
                    true s) = Raise tokens_invalid).
  { intros. apply _request_auth_invalid_iff; [ exact Hbad | ].
    split; [ exact H400 | ]. unfold error_payload. rewrite Hjson. cbn.
    now rewrite Herror. }
  unfold untouched, request_pin, request_tokens, refresh_tokens. run.
  repeat split;
    match goal with
    | |- context [_request K _ ?m ?e ?a ?q ?bd true s] =>
        let Hr := fresh "Hr" in
        let v := fresh "v" in
        let s1 := fresh "s1" in
        let Hd := fresh "Hd" in
        pose proof (Hraise m e a q bd) as Hr;
        answer v s1; subst v; cbn;
        match goal with
        | Hw : exists rq, _ |- _ => destruct Hw as (?rq & _ & _ & _ & _ & Hd)
        end;
        first [ reflexivity | assumption ]
    end.
Qed.

(** X9. When the network gives a handshake call a timeout or a connection
    error, or a response on which [response.json()] returns or raises
    [JSONDecodeError] and that is a success status with [JSONDecodeError] or
    an HTTP error other than 400, the call returns false and changes neither
    the instance nor the disk. *)
Theorem handshake_absorbed_returns_false :
  forall K net s,
    absorbed_answer true net ->
    (fst (request_pin K net s) = Return false
     /\ untouched s (request_pin K net s))
    /\ (fst (request_tokens K net s) = Return false
        /\ untouched s (request_tokens K net s))
    /\ (fst (refresh_tokens K net s) = Return false
        /\ untouched s (refresh_tokens K net s)).
Proof.
  intros K net s Hnet.
  unfold untouched, request_pin, request_tokens, refresh_tokens. run.
  repeat split;
    match goal with
    | |- context [_request K _ ?m ?e ?a ?q ?bd true s] =>
        let Hr := fresh "Hr" in
        let v := fresh "v" in
        let s1 := fresh "s1" in
        let Hd := fresh "Hd" in
        destruct (_request_absorbed_answer K net m e a q bd true s Hnet)
          as (Hr & _ & _);
        answer v s1; subst v; cbn;
        match goal with
        | Hw : exists rq, _ |- _ => destruct Hw as (?rq & _ & _ & _ & _ & Hd)
        end;
        first [ reflexivity | assumption ]
    end.
Qed.

Lemma _write_config_unset K s :
  _file_based_config (self s) = None ->
  _write_config K s = (Raise AttributeError, s).
Proof.
  intros Hnone. unfold _write_config. run. now rewrite Hnone.
Qed.

(** X10. On an instance that was built without file name and configuration
    the attribute [_file_based_config] does not exist.  A token exchange
    that receives both tokens then assigns them and fails in [_write_config]
    with [AttributeError]: nothing is persisted, and [request_tokens] leaves
    the PIN in place. *)
Theorem token_exchange_unconfigured :
  forall K r p access refresh s,
    _file_based_config (self s) = None ->
    raises_for_status r = false ->
    response_json r = Some p ->
    Py.getitem p "access_token" = Return access ->
    Py.getitem p "refresh_token" = Return refresh ->
    (fst (request_tokens K (NetResponse r) s) = Raise AttributeError
     /\ self (snd (request_tokens K (NetResponse r) s))
        = set_refresh_token refresh (set_access_token access (self s))
     /\ disk (snd (request_tokens K (NetResponse r) s)) = disk s)
    /\ (fst (refresh_tokens K (NetResponse r) s) = Raise AttributeError
        /\ self (snd (refresh_tokens K (NetResponse r) s))
           = set_refresh_token refresh (set_access_token access (self s))
        /\ disk (snd (refresh_tokens K (NetResponse r) s)) = disk s).
Proof.
  intros K r p access refresh s Hnone Hok Hp Haccess Hrefresh.
  unfold request_tokens, refresh_tokens.
  split;
    (on_success_payload K r Hok;
     unfold success_payload in *;
     match goal with H : fst _ = Return _ |- _ => rewrite Hp in H end;
     answer v s1; subst v; cbn;
     rewrite Haccess; cbn; rewrite Hrefresh; cbn;
     match goal with
     | |- context [_write_config K ?s2] =>
         rewrite (_write_config_unset K s2)
           by (cbn; rewrite Hself; exact Hnone)
     end;
     destruct Hwire as (rq & _ & _ & _ & _ & Hdisk);
     cbn; rewrite Hself, Hdisk; repeat split; reflexivity).
Qed.

(** The steps of a handshake method after its request send nothing. *)
Ltac wire_of_handshake K :=
  run;
  match goal with
  | |- context [_request K ?net ?m ?ep ?a ?q ?bd ?auth ?s] =>
      let Hsend := fresh "Hsend" in
      let v := fresh "v" in
      let s1 := fresh "s1" in
      destruct (_request_sends K net m ep a q bd auth s) as (_ & _ & Hsend);
      destruct (_request K net m ep a q bd auth s) as [[v | ?e] s1];
      cbn [fst snd] in *; [ | exact Hsend ];
      repeat match goal with
             | |- context [Py.getitem v ?k] =>
                 destruct (Py.getitem v k) as [?x | ?e]; cbn
             | |- context [_write_config K ?s2] =>
                 let Hw := fresh "Hw" in
                 pose proof (_write_config_wire K s2) as Hw;
                 destruct (_write_config K s2) as [[[] | ?e] [? ? ?w ?]];
                 cbn in Hw; subst; cbn
             | |- context [is_KeyError_or_TypeError ?err] =>
                 destruct (is_KeyError_or_TypeError err); cbn
             end;
      try exact Hsend
  end.

(** X11. The three calls of the handshake each send one request, without
    headers and without a body: [request_pin] a GET to the authorization
    endpoint with [response_type=ecobeePin], the API key as [client_id] and
    [scope=smartWrite]; [request_tokens] a POST to the token endpoint with
    [grant_type=ecobeePin] and the authorization code as [code];
    [refresh_tokens] a POST to the token endpoint with
    [grant_type=refresh_token] and the refresh token. *)
Theorem handshake_requests :
  forall K net s,
    wire (snd (request_pin K net s))
    = (wire s
       ++ [{| method := "GET";
              url := ECOBEE_BASE_URL K ++ "/" ++ ECOBEE_ENDPOINT_AUTH K;
              headers := [];
              params :=
                PDict [("response_type", PStr "ecobeePin");
                       ("client_id", api_key (self s));
                       ("scope", PStr "smartWrite")];
              json := PNone;
              timeout := ECOBEE_DEFAULT_TIMEOUT K |}])%list
    /\ wire (snd (request_tokens K net s))
       = (wire s
          ++ [{| method := "POST";
                 url := ECOBEE_BASE_URL K ++ "/" ++ ECOBEE_ENDPOINT_TOKEN K;
                 headers := [];
                 params :=
                   PDict [("grant_type", PStr "ecobeePin");
                          ("code", authorization_code (self s));
                          ("client_id", api_key (self s))];
                 json := PNone;
                 timeout := ECOBEE_DEFAULT_TIMEOUT K |}])%list
    /\ wire (snd (refresh_tokens K net s))
       = (wire s
          ++ [{| method := "POST";
                 url := ECOBEE_BASE_URL K ++ "/" ++ ECOBEE_ENDPOINT_TOKEN K;
                 headers := [];
                 params :=
                   PDict [("grant_type", PStr "refresh_token");
                          ("refresh_token", refresh_token (self s));
                          ("client_id", api_key (self s))];
                 json := PNone;
                 timeout := ECOBEE_DEFAULT_TIMEOUT K |}])%list.
Proof.
  intros K net s. unfold request_pin, request_tokens, refresh_tokens.
  split; [ | split ]; wire_of_handshake K.
Qed.

(** ** Construction and configuration *)

Lemma _load_config_run K cb s d k :
  config (self s) = PDict d ->
  Py.lookup (ECOBEE_API_KEY K) d = Some k ->
  _load_config K cb s
  = (Return tt,
     on_self
       (fun e =>
          {| thermostats := thermostats e;
             config_filename := config_filename e;
             config := config e;
             api_key := k;
             pin := pin e;
             authorization_code :=
               match Py.lookup (ECOBEE_AUTHORIZATION_CODE K) d with
               | Some v => v
               | None => PNone
               end;
             access_token :=
               match Py.lookup (ECOBEE_ACCESS_TOKEN K) d with
               | Some v => v
               | None => PNone
               end;
             refresh_token :=
               match Py.lookup (ECOBEE_REFRESH_TOKEN K) d with
               | Some v => v
               | None => PNone
               end;
             include_notifications :=
               match Py.lookup (ECOBEE_OPTIONS_NOTIFICATIONS K) d with
               | Some v => cb v
               | None => include_notifications e
               end;
             _file_based_config := _file_based_config e |})
       s).
Proof.
  intros Hconfig Hkey.
  destruct s as [[th cf c ak pn ac tk rt inc fb] l w dk].
  cbn in Hconfig. subst c.
  unfold _load_config, on_self. run. rewrite Hkey. cbn.
  destruct (Py.lookup (ECOBEE_OPTIONS_NOTIFICATIONS K) d) as [flag | ]; cbn;
    reflexivity.
Qed.

Arguments _load_config : simpl never.

Lemma init_with_config K cb filename d k s0 :
  d <> [] ->
  Py.lookup (ECOBEE_API_KEY K) d = Some k ->
  __init__ K cb filename (PDict d) s0
  = (Return tt,
     {| self :=
          {| thermostats := PNone;
             config_filename := filename;
             config := PDict d;
             api_key := k;
             pin := PNone;
             authorization_code :=
               match Py.lookup (ECOBEE_AUTHORIZATION_CODE K) d with
               | Some v => v
               | None => PNone
               end;
             access_token :=
               match Py.lookup (ECOBEE_ACCESS_TOKEN K) d with
               | Some v => v
               | None => PNone
               end;
             refresh_token :=
               match Py.lookup (ECOBEE_REFRESH_TOKEN K) d with
               | Some v => v
               | None => PNone
               end;
             include_notifications :=
               match Py.lookup (ECOBEE_OPTIONS_NOTIFICATIONS K) d with
               | Some v => cb v
               | None => false
               end;
             _file_based_config := Some false |};
        logged := logged s0; wire := wire s0; disk := disk s0 |}).
Proof.
  intros Hd Hkey. unfold __init__.
  assert (Htruthy : Py.truthy (PDict d) = true)
    by (destruct d; [ contradiction | reflexivity ]).
  rewrite Htruthy.
  destruct filename; unfold bind, update_self; cbn;
    match goal with
    | |- context [_load_config K cb ?s1] =>
        rewrite (_load_config_run K cb s1 d k eq_refl Hkey)
    end; reflexivity.
Qed.

(** X12. [Ecobee(config_filename, config)] with a non-empty mapping that has
    the API key: the credentials are read from the mapping, a missing token
    or code is [None], the notifications flag is converted when present and
    false otherwise, the PIN and the thermostat cache are [None], and the
    configuration lives in memory.  Nothing is logged, sent or written. *)
Theorem init_loads_config :
  forall K cb filename d k s0,
    d <> [] ->
    Py.lookup (ECOBEE_API_KEY K) d = Some k ->
    fst (__init__ K cb filename (PDict d) s0) = Return tt
    /\ self (snd (__init__ K cb filename (PDict d) s0))
       = {| thermostats := PNone;
            config_filename := filename;
            config := PDict d;
            api_key := k;
            pin := PNone;
            authorization_code :=
              match Py.lookup (ECOBEE_AUTHORIZATION_CODE K) d with
              | Some v => v
              | None => PNone
              end;
            access_token :=
              match Py.lookup (ECOBEE_ACCESS_TOKEN K) d with
              | Some v => v
              | None => PNone
              end;
            refresh_token :=
              match Py.lookup (ECOBEE_REFRESH_TOKEN K) d with
              | Some v => v
              | None => PNone
              end;
            include_notifications :=
              match Py.lookup (ECOBEE_OPTIONS_NOTIFICATIONS K) d with
              | Some v => cb v
              | None => false
              end;
            _file_based_config := Some false |}
    /\ logged (snd (__init__ K cb filename (PDict d) s0)) = logged s0
    /\ wire (snd (__init__ K cb filename (PDict d) s0)) = wire s0
    /\ disk (snd (__init__ K cb filename (PDict d) s0)) = disk s0.
Proof.
  intros K cb filename d k s0 Hd Hkey.
  rewrite (init_with_config K cb filename d k s0 Hd Hkey).
  repeat split; reflexivity.
Qed.

(** X13. [Ecobee(config_filename, config)] with a non-empty mapping that
    lacks the API key raises [KeyError]; no token has been read by then. *)
Theorem init_missing_api_key :
  forall K cb filename d s0,
    d <> [] ->
    Py.lookup (ECOBEE_API_KEY K) d = None ->
    fst (__init__ K cb filename (PDict d) s0) = Raise KeyError
    /\ api_key (self (snd (__init__ K cb filename (PDict d) s0))) = PNone
    /\ access_token (self (snd (__init__ K cb filename (PDict d) s0))) = PNone
    /\ refresh_token (self (snd (__init__ K cb filename (PDict d) s0))) = PNone
    /\ authorization_code (self (snd (__init__ K cb filename (PDict d) s0)))
       = PNone.
Proof.
  intros K cb filename d s0 Hd Hkey. unfold __init__, _load_config.
  assert (Htruthy : Py.truthy (PDict d) = true)
    by (destruct d; [ contradiction | reflexivity ]).
  rewrite Htruthy.
  destruct filename; run; rewrite Hkey; cbn; repeat split; reflexivity.
Qed.

(** X14. [Ecobee(config_filename, config)] with a configuration that is
    [None] or empty reads no credentials.  Without a file name and with
    [config=None] it logs an error and leaves [_file_based_config] unset; in
    every other case, an empty mapping without a file name among them, the
    client is file-based. *)
Theorem init_without_config :
  forall K cb filename cfg s0,
    Py.truthy cfg = false ->
    fst (__init__ K cb filename cfg s0) = Return tt
    /\ config (self (snd (__init__ K cb filename cfg s0))) = cfg
    /\ api_key (self (snd (__init__ K cb filename cfg s0))) = PNone
    /\ access_token (self (snd (__init__ K cb filename cfg s0))) = PNone
    /\ refresh_token (self (snd (__init__ K cb filename cfg s0))) = PNone
    /\ authorization_code (self (snd (__init__ K cb filename cfg s0))) = PNone
    /\ (filename = PNone /\ cfg = PNone ->
        _file_based_config (self (snd (__init__ K cb filename cfg s0))) = None
        /\ logged (snd (__init__ K cb filename cfg s0))
           = (logged s0
              ++ [(ERROR,
                   [Lit "No ecobee credentials supplied, unable to continue"])])%list)
    /\ (filename <> PNone \/ cfg <> PNone ->
        _file_based_config (self (snd (__init__ K cb filename cfg s0)))
        = Some true
        /\ logged (snd (__init__ K cb filename cfg s0)) = logged s0).
Proof.
  intros K cb filename cfg s0 Hfalsy. unfold __init__. rewrite Hfalsy.
  destruct filename, cfg; run; repeat split; try reflexivity;
    intuition congruence.
Qed.

Lemma config_of_lookup K e :
  distinct_keys K ->
  Py.lookup (ECOBEE_API_KEY K) (config_of K e) = Some (api_key e)
  /\ Py.lookup (ECOBEE_ACCESS_TOKEN K) (config_of K e) = Some (access_token e)
  /\ Py.lookup (ECOBEE_REFRESH_TOKEN K) (config_of K e)
     = Some (refresh_token e)
  /\ Py.lookup (ECOBEE_AUTHORIZATION_CODE K) (config_of K e)
     = Some (authorization_code e)
  /\ Py.lookup (ECOBEE_OPTIONS_NOTIFICATIONS K) (config_of K e)
     = Some (PStr (Py.str_bool (include_notifications e))).
Proof.
  unfold distinct_keys, config_of. intros Hd.
  repeat match goal with
         | H : NoDup (_ :: _) |- _ => inversion H; clear H; subst
         end.
  cbn in *. rewrite !String.eqb_refl.
  repeat match goal with
         | |- context [String.eqb ?a ?b] =>
             destruct (String.eqb_spec a b);
             [exfalso; intuition congruence | cbn]
         end.
  repeat split; reflexivity.
Qed.

Arguments config_of : simpl never.

Lemma reads_back_str_bool cb b :
  reads_back_flag cb -> cb (PStr (Py.str_bool b)) = b.
Proof. intros [Ht Hf]. destruct b; assumption. Qed.

(** X15. A client configured in memory: a new client built from the mapping
    [_write_config] stored in [self.config] has the same API key, tokens,
    authorization code and notifications flag, and no PIN, provided
    [convert_to_bool] reads [True] and [False] back. *)
Theorem write_then_init_round_trip :
  forall K cb s s0,
    distinct_keys K ->
    reads_back_flag cb ->
    _file_based_config (self s) = Some false ->
    fst (__init__ K cb (config_filename (self s))
           (config (self (snd (_write_config K s)))) s0) = Return tt
    /\ same_credentials
         (self (snd (__init__ K cb (config_filename (self s))
                       (config (self (snd (_write_config K s)))) s0)))
         (self s)
    /\ pin (self (snd (__init__ K cb (config_filename (self s))
                         (config (self (snd (_write_config K s)))) s0)))
       = PNone
    /\ _file_based_config
         (self (snd (__init__ K cb (config_filename (self s))
                       (config (self (snd (_write_config K s)))) s0)))
       = Some false.
Proof.
  intros K cb s s0 Hd Hcb Hb.
  rewrite (_write_config_run K s false Hd Hb). cbn [snd on_self self config].
  unfold set_config. cbn [config].
  destruct (config_of_lookup K (self s) Hd) as (Hk & Ha & Hr & Hc & Hn).
  rewrite (init_with_config K cb _ (config_of K (self s)) (api_key (self s)) s0)
    by (try exact Hk; discriminate).
  rewrite Ha, Hr, Hc, Hn, (reads_back_str_bool cb _ Hcb).
  unfold same_credentials. cbn. repeat split; reflexivity.
Qed.

(** X16. A file-based client: [_write_config] hands one mapping to the file
    helper; when the helper later returns that mapping,
    [read_config_from_file] makes it [self.config] and reads the same API
    key, tokens, authorization code and notifications flag from it, leaving
    the PIN as it is. *)
Theorem write_then_read_config :
  forall K cb s,
    distinct_keys K ->
    reads_back_flag cb ->
    _file_based_config (self s) = Some true ->
    exists stored,
      disk (snd (_write_config K s))
      = (disk s ++ [(config_filename (self s), stored)])%list
      /\ fst (read_config_from_file K cb stored (snd (_write_config K s)))
         = Return tt
      /\ config (self (snd (read_config_from_file K cb stored
                              (snd (_write_config K s)))))
         = stored
      /\ same_credentials
           (self (snd (read_config_from_file K cb stored
                         (snd (_write_config K s)))))
           (self s)
      /\ pin (self (snd (read_config_from_file K cb stored
                           (snd (_write_config K s)))))
         = pin (self s).
Proof.
  intros K cb s Hd Hcb Hb.
  exists (PDict (config_of K (self s))).
  rewrite (_write_config_run K s true Hd Hb). cbn [snd disk].
  split; [ reflexivity | ].
  destruct (config_of_lookup K (self s) Hd) as (Hk & Ha & Hr & Hc & Hn).
  unfold read_config_from_file. run. rewrite Hb. cbn.
  match goal with
  | |- context [_load_config K cb ?s1] =>
      rewrite (_load_config_run K cb s1 (config_of K (self s))
                 (api_key (self s)) eq_refl Hk)
  end.
  rewrite Ha, Hr, Hc, Hn, (reads_back_str_bool cb _ Hcb).
  unfold same_credentials. cbn. repeat split; reflexivity.
Qed.

(** ** More on the thermostat cache and the updates *)

Lemma index_out_of_range l i :
  out_of_range l i -> Py.index (PList l) i = Raise IndexError.
Proof.
  unfold out_of_range, Py.index, Py.position. intros Hout.
  destruct ((0 <=? i) && (i <? Z.of_nat (List.length l))) eqn:Hin.
  - apply andb_true_iff in Hin as [H1 H2]. lia.
  - destruct ((- Z.of_nat (List.length l) <=? i) && (i <? 0)) eqn:Hneg;
      [ | reflexivity ].
    apply andb_true_iff in Hneg as [H1 H2]. lia.
Qed.

Lemma index_in_range l i x :
  (0 <= i < Z.of_nat (List.length l) /\ nth_error l (Z.to_nat i) = Some x)
  \/ (- Z.of_nat (List.length l) <= i < 0
      /\ nth_error l (Z.to_nat (Z.of_nat (List.length l) + i)) = Some x) ->
  Py.index (PList l) i = Return x.
Proof.
  unfold Py.index, Py.position. intros [[Hin Hx] | [Hin Hx]].
  - replace ((0 <=? i) && (i <? Z.of_nat (List.length l))) with true
      by (symmetry; apply andb_true_iff; lia).
    now rewrite Hx.
  - replace ((0 <=? i) && (i <? Z.of_nat (List.length l))) with false
      by (symmetry; apply andb_false_iff; lia).
    replace ((- Z.of_nat (List.length l) <=? i) && (i <? 0)) with true
      by (symmetry; apply andb_true_iff; lia).
    now rewrite Hx.
Qed.

(** X17. With a list of thermostats in the cache, an index at or beyond its
    length, or below minus its length, makes the three accessors and
    [post_update] raise [IndexError]; nothing is sent, logged or changed. *)
Theorem index_out_of_range_raises :
  forall K net index action props funcs l s,
    thermostats (self s) = PList l ->
    out_of_range l index ->
    get_thermostat index s = (Raise IndexError, s)
    /\ get_remote_sensors index s = (Raise IndexError, s)
    /\ get_equipment_notifications index s = (Raise IndexError, s)
    /\ post_update K net index action props funcs s = (Raise IndexError, s).
Proof.
  intros K net index action props funcs l s Hl Hout.
  unfold get_thermostat, get_remote_sensors, get_equipment_notifications,
    post_update. run.
  rewrite Hl, (index_out_of_range l index Hout).
  repeat split; reflexivity.
Qed.

(** X18. Before the first successful fetch the cache is [None]: the three
    accessors and [post_update], and with it every thermostat function,
    raise [TypeError]; nothing is sent, logged or changed. *)
Theorem before_first_fetch_raises :
  forall K net index action props funcs s,
    thermostats (self s) = PNone ->
    get_thermostat index s = (Raise TypeError, s)
    /\ get_remote_sensors index s = (Raise TypeError, s)
    /\ get_equipment_notifications index s = (Raise TypeError, s)
    /\ post_update K net index action props funcs s = (Raise TypeError, s)
    /\ (forall message,
          send_message K net index message s = (Raise TypeError, s)).
Proof.
  intros K net index action props funcs s Hnone.
  unfold send_message, call_post_update, get_thermostat, get_remote_sensors,
    get_equipment_notifications, post_update. run.
  rewrite Hnone. repeat split; reflexivity.
Qed.

(** X19. After a fetch that received the list [l] as [thermostatList],
    [get_thermostat(i)] returns the entry at position [i] for
    [0 <= i < len(l)] and the entry at [len(l) + i] for [-len(l) <= i < 0],
    and changes nothing. *)
Theorem get_thermostat_after_fetch :
  forall K dumps r p l i x s,
    raises_for_status r = false ->
    response_json r = Some p ->
    Py.getitem p "thermostatList" = Return (PList l) ->
    (0 <= i < Z.of_nat (List.length l) /\ nth_error l (Z.to_nat i) = Some x)
    \/ (- Z.of_nat (List.length l) <= i < 0
        /\ nth_error l (Z.to_nat (Z.of_nat (List.length l) + i)) = Some x) ->
    get_thermostat i (snd (get_thermostats K dumps (NetResponse r) s))
    = (Return x, snd (get_thermostats K dumps (NetResponse r) s)).
Proof.
  intros K dumps r p l i x s Hok Hp Hlist Hi.
  assert (Hcache :
    thermostats (self (snd (get_thermostats K dumps (NetResponse r) s)))
    = PList l).
  { destruct (get_thermostats_after_request K dumps (NetResponse r) s)
      as [query ->].
    pose proof (_request_success K r "GET" (ECOBEE_ENDPOINT_THERMOSTAT K)
                  "get thermostats" query PNone false s Hok) as Hrun.
    unfold success_payload in Hrun. rewrite Hp in Hrun.
    destruct (_request K _ _ _ _ _ _ _ s) as [res s1]; cbn in Hrun.
    subst res. rewrite Hlist. reflexivity. }
  unfold get_thermostat. run. rewrite Hcache.
  now rewrite (index_in_range l i x Hi).
Qed.

Lemma post_update_after_request K net index action props funcs s thermostat
    identifier :
  Py.index (thermostats (self s)) index = Return thermostat ->
  Py.getitem thermostat "identifier" = Return identifier ->
  post_update K net index action props funcs s
  = match _request K net "POST" (ECOBEE_ENDPOINT_THERMOSTAT K) action PNone
            (PDict (update_body identifier props funcs)) false s with
    | (Return _, s1) => (Return tt, s1)
    | (Raise e, s1) => (Raise e, s1)
    end.
Proof.
  intros Hth Hid. unfold post_update, update_body, selection_of. run.
  rewrite Hth. cbn. rewrite Hid. cbn.
  destruct (Py.truthy props), (Py.truthy funcs); cbn;
    match goal with
    | |- context [_request K net ?m ?ep ?a ?q ?bd ?auth s] =>
        destruct (_request K net m ep a q bd auth s) as [[v | e] s1]
    end; cbn; try reflexivity; destruct (is_token_error e); reflexivity.
Qed.

Lemma call_post_update_after_request K net index action props funcs s :
  call_post_update K net index action [("props", props); ("funcs", funcs)] s
  = post_update K net index action props funcs s
  /\ call_post_update K net index action [("props", props)] s
     = post_update K net index action props PNone s
  /\ call_post_update K net index action [("funcs", funcs)] s
     = post_update K net index action PNone funcs s.
Proof. repeat split; reflexivity. Qed.

Lemma post_update_sends_body :
  forall K net index action props funcs s thermostat identifier,
    Py.index (thermostats (self s)) index = Return thermostat ->
    Py.getitem thermostat "identifier" = Return identifier ->
    posts_body s (post_update K net index action props funcs s)
      (update_body identifier props funcs)
    /\ untouched s (post_update K net index action props funcs s).
Proof.
  intros K net index action props funcs s thermostat identifier Hth Hid.
  rewrite (post_update_after_request K net index action props funcs s
             thermostat identifier Hth Hid).
  unfold posts_body, untouched.
  match goal with
  | |- context [_request K net ?m ?ep ?a ?q ?bd ?auth s] =>
      destruct (_request_sends K net m ep a q bd auth s) as (Hs & Hd & Hw);
      destruct (_request K net m ep a q bd auth s) as [[v | e] s1]
  end; cbn [fst snd] in *;
    (split; [ eexists; split; [ exact Hw | repeat split ] | split; assumption ]).
Qed.

(** X20. [post_update], for an index that names a thermostat with an
    identifier, sends one POST whose body is the selection of that
    thermostat, followed by [thermostat] when [props] is not empty and by
    [functions] when [funcs] is not empty; with neither, the selection alone
    is posted.  The instance and the disk are left alone. *)
Theorem post_update_posts_body :
  forall K net index action props funcs s thermostat identifier,
    Py.index (thermostats (self s)) index = Return thermostat ->
    Py.getitem thermostat "identifier" = Return identifier ->
    posts_body s (post_update K net index action props funcs s)
      (update_body identifier props funcs)
    /\ untouched s (post_update K net index action props funcs s).
Proof.
  exact post_update_sends_body.
Qed.

(** X21. What a caller of [post_update] sees, for an index that names a
    thermostat with an identifier, when the network gives no response or a
    response on which [response.json()] returns or raises [JSONDecodeError].
    After a timeout, a connection error, a response that is not an HTTP
    error and an HTTP error other than 500 the call returns [None]: a
    failure that was absorbed looks like a success.  A 500 whose
    [status.code] is 1 or 16 raises the invalid-token error, one whose code
    is 14 the expired-token error, and any other code returns [None] as
    well. *)
Theorem post_update_outcomes :
  forall K net index action props funcs s thermostat identifier,
    Py.index (thermostats (self s)) index = Return thermostat ->
    Py.getitem thermostat "identifier" = Return identifier ->
    (absorbed_answer false net
     \/ (exists r, net = NetResponse r /\ raises_for_status r = false) ->
     fst (post_update K net index action props funcs s) = Return tt)
    /\ (forall r st code,
          net = NetResponse r ->
          status_code r = 500 ->
          Py.get (error_payload r) "status" (PDict []) = Return st ->
          Py.get st "code" PNone = Return code ->
          fst (post_update K net index action props funcs s)
          = if Py.in_ints code [1; 16] then Raise tokens_invalid
            else if Py.eq_int code 14 then Raise token_expired
            else Return tt).
Proof.
  intros K net index action props funcs s thermostat identifier Hth Hid.
  rewrite (post_update_after_request K net index action props funcs s
             thermostat identifier Hth Hid).
  split.
  - intros [Habs | (r & -> & Hok)].
    + destruct (_request_absorbed_answer K net "POST"
                  (ECOBEE_ENDPOINT_THERMOSTAT K) action PNone
                  (PDict (update_body identifier props funcs)) false s Habs)
        as (Hv & _).
      destruct (_request K net _ _ _ _ _ _ s) as [res s1]; cbn in Hv.
      subst res. reflexivity.
    + pose proof (_request_success K r "POST" (ECOBEE_ENDPOINT_THERMOSTAT K)
                    action PNone
                    (PDict (update_body identifier props funcs)) false s Hok)
        as Hv.
      destruct (_request K _ _ _ _ _ _ _ s) as [res s1]; cbn in Hv.
      subst res. reflexivity.
  - intros r st code -> H500 Hst Hcode.
    assert (Hbad : raises_for_status r = true)
      by (unfold raises_for_status; rewrite H500; reflexivity).
    pose proof (_request_api_error K r "POST" (ECOBEE_ENDPOINT_THERMOSTAT K)
                  action PNone (PDict (update_body identifier props funcs)) s
                  st code Hbad H500 Hst Hcode) as Hv.
    cbv zeta in Hv.
    destruct (_request K _ _ _ _ _ _ _ s) as [res s1]; cbn [fst] in Hv.
    destruct (Py.in_ints code [1; 16]); [ subst res; reflexivity | ].
    destruct (Py.eq_int code 14); [ subst res; reflexivity | ].
    destruct Hv as (Hv & _). cbn in Hv. subst res. reflexivity.
Qed.

(** X22. No thermostat function changes the instance: whatever its keyword
    arguments, the index and the answer of the network, a call of
    [post_update] leaves the cache, the tokens and the disk as they were,
    and sends at most one request. *)
Theorem post_update_changes_nothing :
  forall K net index action kwargs s,
    untouched s (call_post_update K net index action kwargs s)
    /\ (wire (snd (call_post_update K net index action kwargs s)) = wire s
        \/ exists rq,
             wire (snd (call_post_update K net index action kwargs s))
             = (wire s ++ [rq])%list).
Proof.
  intros K net index action kwargs s.
  unfold untouched, call_post_update.
  destruct (forallb _ kwargs); [ | cbn; tauto ].
  unfold post_update. run.
  destruct (Py.index (thermostats (self s)) index) as [t | e]; cbn;
    [ | tauto ].
  destruct (Py.getitem t "identifier") as [ident | e]; cbn; [ | tauto ].
  match goal with
  | |- context [_request K net ?m ?ep ?a ?q ?bd ?auth s] =>
      destruct (_request_sends K net m ep a q bd auth s) as (Hs & Hd & Hw);
      destruct (_request K net m ep a q bd auth s) as [[v | e] s1]
  end; cbn [fst snd] in *; cbn;
    try destruct (is_token_error e); cbn;
    (split; [ split; assumption | right; eexists; exact Hw ]).
Qed.

(** X24. [create_vacation], for an index that names a thermostat, posts one
    [createVacation] function whose hold temperatures are ten times the
    temperatures given, with the name, the four dates and times as given,
    and the fan settings under [fan_mode] and [fan_min_on_time]. *)
Theorem create_vacation_scales :
  forall K net index vacation_name cool_temp heat_temp start_date start_time
         end_date end_time fan_mode fan_min_on_time s thermostat identifier,
    Py.index (thermostats (self s)) index = Return thermostat ->
    Py.getitem thermostat "identifier" = Return identifier ->
    posts_body s
      (create_vacation K net index vacation_name cool_temp heat_temp
         start_date start_time end_date end_time fan_mode fan_min_on_time s)
      [selection_of identifier;
       ("functions",
        PList
          [PDict
             [("type", PStr "createVacation");
              ("params",
               PDict [("name", PStr vacation_name);
                      ("coolHoldTemp", PInt (cool_temp * 10));
                      ("heatHoldTemp", PInt (heat_temp * 10));
                      ("startDate", start_date);
                      ("startTime", start_time);
                      ("endDate", end_date);
                      ("endTime", end_time);
                      ("fan_mode", PStr fan_mode);
                      ("fan_min_on_time", PStr fan_min_on_time)])]])].
Proof.
  intros until identifier. intros Hth Hid. unfold create_vacation.
  match goal with
  | |- context [call_post_update K net index ?a [("funcs", ?f)] s] =>
      change (call_post_update K net index a [("funcs", f)] s)
        with (post_update K net index a PNone f s);
      exact (proj1 (post_update_sends_body K net index a PNone f s thermostat
                      identifier Hth Hid))
  end.
Qed.

(** X25. The calls that change settings, for an index that names a
    thermostat, each post the selection and one [thermostat] patch, without
    functions: the HVAC mode, the fan minimum on time and the humidity under
    [settings], the microphone under [audio], the daylight saving under
    [location].  [set_occupancy_modes] posts both of its settings, as
    [null] when not given. *)
Theorem settings_calls_post_props :
  forall K net index s thermostat identifier,
    Py.index (thermostats (self s)) index = Return thermostat ->
    Py.getitem thermostat "identifier" = Return identifier ->
    (forall hvac_mode,
       posts_body s (set_hvac_mode K net index hvac_mode s)
         [selection_of identifier;
          ("thermostat",
           PDict [("settings", PDict [("hvacMode", PStr hvac_mode)])])])
    /\ (forall fan_min_on_time,
          posts_body s (set_fan_min_on_time K net index fan_min_on_time s)
            [selection_of identifier;
             ("thermostat",
              PDict [("settings",
                      PDict [("fanMinOnTime", PInt fan_min_on_time)])])])
    /\ (forall humidity,
          posts_body s (set_humidity K net index humidity s)
            [selection_of identifier;
             ("thermostat",
              PDict [("settings", PDict [("humidity", PStr humidity)])])])
    /\ (forall mic_enabled,
          posts_body s (set_mic_mode K net index mic_enabled s)
            [selection_of identifier;
             ("thermostat",
              PDict [("audio",
                      PDict [("microphoneEnabled", PBool mic_enabled)])])])
    /\ (forall auto_away follow_me,
          posts_body s (set_occupancy_modes K net index auto_away follow_me s)
            [selection_of identifier;
             ("thermostat",
              PDict [("settings",
                      PDict [("autoAway", auto_away);
                             ("followMeComfort", follow_me)])])])
    /\ (forall enable_dst,
          posts_body s (set_dst_mode K net index enable_dst s)
            [selection_of identifier;
             ("thermostat",
              PDict [("location",
                      PDict [("isDaylightSaving", PBool enable_dst)])])]).
Proof.
  intros K net index s thermostat identifier Hth Hid.
  unfold set_hvac_mode, set_fan_min_on_time, set_humidity, set_mic_mode,
    set_occupancy_modes, set_dst_mode.
  repeat split; intros;
    match goal with
    | |- context [call_post_update K net index ?a [("props", ?p)] s] =>
        change (call_post_update K net index a [("props", p)] s)
          with (post_update K net index a p PNone s);
        exact (proj1 (post_update_sends_body K net index a p PNone s
                        thermostat identifier Hth Hid))
    end.
Qed.

(** X26. The other function calls, for an index that names a thermostat,
    each post the selection and one function: [set_climate_hold] a
    [setHold] with the hold type and the climate, [delete_vacation] a
    [deleteVacation] with the name, [resume_program] a [resumeProgram] with
    the [resumeAll] flag. *)
Theorem function_calls_post_funcs :
  forall K net index s thermostat identifier,
    Py.index (thermostats (self s)) index = Return thermostat ->
    Py.getitem thermostat "identifier" = Return identifier ->
    (forall climate hold_type,
       posts_body s (set_climate_hold K net index climate hold_type s)
         [selection_of identifier;
          ("functions",
           PList [PDict [("type", PStr "setHold");
                         ("params",
                          PDict [("holdType", PStr hold_type);
                                 ("holdClimateRef", PStr climate)])]])])
    /\ (forall vacation,
          posts_body s (delete_vacation K net index vacation s)
            [selection_of identifier;
             ("functions",
              PList [PDict [("type", PStr "deleteVacation");
                            ("params", PDict [("name", PStr vacation)])]])])
    /\ (forall resume_all,
          posts_body s (resume_program K net index resume_all s)
            [selection_of identifier;
             ("functions",
              PList [PDict [("type", PStr "resumeProgram");
                            ("params",
                             PDict [("resumeAll", PBool resume_all)])]])]).
Proof.
  intros K net index s thermostat identifier Hth Hid.
  unfold set_climate_hold, delete_vacation, resume_program.
  repeat split; intros;
    match goal with
    | |- context [call_post_update K net index ?a [("funcs", ?f)] s] =>
        change (call_post_update K net index a [("funcs", f)] s)
          with (post_update K net index a PNone f s);
        exact (proj1 (post_update_sends_body K net index a PNone f s
                        thermostat identifier Hth Hid))
    end.
Qed.

(** X27. [get_thermostats] sends one GET without a body to the versioned
    thermostat endpoint, with the access token in the [Authorization]
    header, and as its only parameter [json], the JSON text of the
    selection: the eight fixed entries, followed by
    [includeNotificationSettings] exactly when the notifications flag is
    set. *)
Theorem get_thermostats_request :
  forall K dumps net s,
    wire (snd (get_thermostats K dumps net s))
    = (wire s
       ++ [{| method := "GET";
              url :=
                ECOBEE_BASE_URL K ++ "/" ++ ECOBEE_API_VERSION K ++ "/"
                ++ ECOBEE_ENDPOINT_THERMOSTAT K;
              headers :=
                [("Content-Type", [Lit "application/json;charset=UTF-8"]);
                 ("Authorization",
                  [Lit "Bearer "; Fmt (access_token (self s))])];
              params :=
                PDict
                  [("json",
                    PStr
                      (dumps
                         (PDict
                            [("selection",
                              PDict
                                (base_selection
                                 ++ (if include_notifications (self s)
                                     then [("includeNotificationSettings",
                                            PBool true)]
                                     else []))%list)])))];
              json := PNone;
              timeout := ECOBEE_DEFAULT_TIMEOUT K |}])%list.
Proof.
  intros K dumps net s. unfold get_thermostats, base_selection. run.
  destruct (include_notifications (self s)); cbn;
    match goal with
    | |- context [_request K net ?m ?ep ?a ?q ?bd ?auth s] =>
        destruct (_request_sends K net m ep a q bd auth s) as (_ & _ & Hw);
        destruct (_request K net m ep a q bd auth s) as [[v | e] s1]
    end; cbn [fst snd] in *; cbn; try exact Hw;
    destruct (Py.getitem v "thermostatList") as [l | e]; cbn;
    try destruct (is_KeyError_or_TypeError e); exact Hw.
Qed.

(** ** More concrete runs *)

Lemma request_exceptions_witness :
  fst (_request sample_const (NetResponse expired_response) "GET" "thermostat"
         "get thermostats" PNone PNone false fresh_client)
  = Raise token_expired
  /\ ((exists r, NetResponse expired_response = NetResponseFault r token_expired)
      \/ exists r,
           NetResponse expired_response = NetResponse r
           /\ raises_for_status r = true
           /\ status_code r = 500
           /\ (token_expired = tokens_invalid
               \/ (token_expired = token_expired /\ false = false)
               \/ (token_expired = AttributeError
                   /\ exists p, response_json r = Some p))).
Proof.
  split; [ reflexivity | ].
  apply (request_exceptions sample_const (NetResponse expired_response) "GET"
           "thermostat" "get thermostats" PNone PNone false fresh_client
           token_expired).
  reflexivity.
Defined.

Lemma api_500_classification_witness :
  status_code expired_response = 500
  /\ Py.get (error_payload expired_response) "status" (PDict [])
     = Return (PDict [("code", PInt 14);
                      ("message", PStr "Authentication token has expired")])
  /\ fst (_request sample_const (NetResponse expired_response) "POST"
            "thermostat" "set HVAC mode" PNone PNone false fresh_client)
     = Raise token_expired.
Proof.
  split; [ reflexivity | split; [ reflexivity | ] ].
  exact (api_500_classification sample_const expired_response "POST"
           "thermostat" "set HVAC mode" PNone PNone fresh_client
           (PDict [("code", PInt 14);
                   ("message", PStr "Authentication token has expired")])
           (PInt 14) eq_refl eq_refl eq_refl).
Defined.

Lemma not_found_is_absorbed_answer :
  absorbed_answer false (NetResponse not_found_response).
Proof.
  right; right; right. exists not_found_response.
  split; [ reflexivity | split; [ reflexivity | discriminate ] ].
Qed.

Lemma request_absorbs_witness :
  absorbed_answer false (NetResponse not_found_response)
  /\ absorbed fresh_client
       (_request sample_const (NetResponse not_found_response) "GET"
          "thermostat" "get thermostats" PNone PNone false fresh_client).
Proof.
  split; [ exact not_found_is_absorbed_answer | ].
  apply (request_absorbs sample_const (NetResponse not_found_response) "GET"
           "thermostat" "get thermostats" PNone PNone false fresh_client).
  exact not_found_is_absorbed_answer.
Defined.

Lemma auth_invalid_token_iff_witness :
  raises_for_status invalid_grant_response = true
  /\ fst (_request sample_const (NetResponse invalid_grant_response) "POST"
            "token" "refresh tokens" PNone PNone true fresh_client)
     = Raise tokens_invalid.
Proof.
  split; [ reflexivity | ].
  apply (auth_invalid_token_iff sample_const invalid_grant_response "POST"
           "token" "refresh tokens" PNone PNone fresh_client eq_refl).
  split; [ reflexivity | ].
  exists [("error", PStr "invalid_grant")]. split; reflexivity.
Defined.

Lemma refresh_tokens_persists_witness :
  distinct_keys sample_const
  /\ _file_based_config (self fresh_client) = Some false
  /\ fst (refresh_tokens sample_const (NetResponse (ok_response token_payload))
            fresh_client) = Return true
  /\ persisted
       (snd (refresh_tokens sample_const
               (NetResponse (ok_response token_payload)) fresh_client))
     = Some (PDict [("API_KEY", PStr "KEY0"); ("ACCESS_TOKEN", PStr "AT1");
                    ("REFRESH_TOKEN", PStr "RT1");
                    ("AUTHORIZATION_CODE", PNone);
                    ("INCLUDE_NOTIFICATIONS", PStr "False")]).
Proof.
  split; [ exact sample_keys_distinct | split; [ reflexivity | ] ].
  destruct (refresh_tokens_persists sample_const (ok_response token_payload)
              token_payload (PStr "AT1") (PStr "RT1") false fresh_client
              sample_keys_distinct eq_refl eq_refl eq_refl eq_refl eq_refl)
    as (H1 & H2 & _).
  split; [ exact H1 | exact H2 ].
Defined.

Lemma access_only_misses_refresh :
  forall v,
    Py.getitem (success_payload (ok_response access_only_payload))
      "refresh_token" <> Return v.
Proof. intros v. discriminate. Qed.

Lemma token_exchange_malformed_payload_witness :
  raises_for_status (ok_response access_only_payload) = false
  /\ fst (refresh_tokens sample_const
            (NetResponse (ok_response access_only_payload)) fresh_client)
     = Return false
  /\ persisted
       (snd (refresh_tokens sample_const
               (NetResponse (ok_response access_only_payload)) fresh_client))
     = persisted fresh_client
  /\ self (snd (refresh_tokens sample_const
                  (NetResponse (ok_response access_only_payload))
                  fresh_client))
     = set_access_token (PStr "AT2") (self fresh_client).
Proof.
  split; [ reflexivity | ].
  destruct (token_exchange_malformed_payload sample_const
              (ok_response access_only_payload) fresh_client eq_refl
              (or_intror access_only_misses_refresh))
    as (_ & H1 & H2 & _ & _ & H3).
  split; [ exact H1 | split; [ exact H2 | ] ].
  apply H3. reflexivity.
Defined.

Lemma handshake_invalid_grant_witness :
  status_code invalid_grant_response = 400
  /\ fst (refresh_tokens sample_const (NetResponse invalid_grant_response)
            fresh_client) = Raise tokens_invalid
  /\ untouched fresh_client
       (refresh_tokens sample_const (NetResponse invalid_grant_response)
          fresh_client).
Proof.
  split; [ reflexivity | ].
  destruct (handshake_invalid_grant sample_const invalid_grant_response
              [("error", PStr "invalid_grant")] fresh_client eq_refl eq_refl
              eq_refl) as (_ & _ & H).
  exact H.
Defined.

Lemma timeout_is_absorbed_answer : absorbed_answer true NetTimeout.
Proof. left. reflexivity. Qed.

Lemma handshake_absorbed_returns_false_witness :
  absorbed_answer true NetTimeout
  /\ fst (request_pin sample_const NetTimeout fresh_client) = Return false
  /\ untouched fresh_client (request_pin sample_const NetTimeout fresh_client).
Proof.
  split; [ exact timeout_is_absorbed_answer | ].
  destruct (handshake_absorbed_returns_false sample_const NetTimeout
              fresh_client timeout_is_absorbed_answer) as (H & _).
  exact H.
Defined.

Lemma token_exchange_unconfigured_witness :
  _file_based_config (self unconfigured_client) = None
  /\ fst (request_tokens sample_const (NetResponse (ok_response token_payload))
            unconfigured_client) = Raise AttributeError
  /\ access_token
       (self (snd (request_tokens sample_const
                     (NetResponse (ok_response token_payload))
                     unconfigured_client)))
     = PStr "AT1"
  /\ disk (snd (request_tokens sample_const
                  (NetResponse (ok_response token_payload))
                  unconfigured_client))
     = [].
Proof.
  split; [ reflexivity | ].
  destruct (token_exchange_unconfigured sample_const (ok_response token_payload)
              token_payload (PStr "AT1") (PStr "RT1") unconfigured_client
              eq_refl eq_refl eq_refl eq_refl eq_refl)
    as ((H1 & H2 & H3) & _).
  split; [ exact H1 | split; [ now rewrite H2 | exact H3 ] ].
Defined.

Lemma init_loads_config_witness :
  stored_config <> []
  /\ Py.lookup (ECOBEE_API_KEY sample_const) stored_config = Some (PStr "KEY0")
  /\ fst (__init__ sample_const sample_convert PNone (PDict stored_config)
            blank) = Return tt
  /\ self (snd (__init__ sample_const sample_convert PNone
                  (PDict stored_config) blank))
     = {| thermostats := PNone; config_filename := PNone;
          config := PDict stored_config; api_key := PStr "KEY0";
          pin := PNone; authorization_code := PNone; access_token := PNone;
          refresh_token := PStr "RT0"; include_notifications := true;
          _file_based_config := Some false |}.
Proof.
  assert (Hd : stored_config <> []) by discriminate.
  split; [ exact Hd | split; [ reflexivity | ] ].
  destruct (init_loads_config sample_const sample_convert PNone stored_config
              (PStr "KEY0") blank Hd eq_refl) as (H1 & H2 & _).
  split; [ exact H1 | exact H2 ].
Defined.

Lemma init_missing_api_key_witness :
  [("ACCESS_TOKEN", PStr "AT0")] <> []
  /\ Py.lookup (ECOBEE_API_KEY sample_const) [("ACCESS_TOKEN", PStr "AT0")]
     = None
  /\ fst (__init__ sample_const sample_convert PNone
            (PDict [("ACCESS_TOKEN", PStr "AT0")]) blank)
     = Raise KeyError.
Proof.
  assert (Hd : [("ACCESS_TOKEN", PStr "AT0")] <> []) by discriminate.
  split; [ exact Hd | split; [ reflexivity | ] ].
  destruct (init_missing_api_key sample_const sample_convert PNone
              [("ACCESS_TOKEN", PStr "AT0")] blank Hd eq_refl) as (H & _).
  exact H.
Defined.

(** [Ecobee(config={})]: a file-based client without a file name. *)
Lemma init_without_config_witness :
  Py.truthy (PDict []) = false
  /\ fst (__init__ sample_const sample_convert PNone (PDict []) blank)
     = Return tt
  /\ _file_based_config
       (self (snd (__init__ sample_const sample_convert PNone (PDict [])
                     blank)))
     = Some true
  /\ config_filename
       (self (snd (__init__ sample_const sample_convert PNone (PDict [])
                     blank)))
     = PNone.
Proof.
  split; [ reflexivity | ].
  destruct (init_without_config sample_const sample_convert PNone (PDict [])
              blank eq_refl) as (H1 & _ & _ & _ & _ & _ & _ & H2).
  split; [ exact H1 | split; [ | reflexivity ] ].
  apply H2. right. discriminate.
Defined.

Lemma sample_convert_reads_back : reads_back_flag sample_convert.
Proof. split; reflexivity. Qed.

Lemma write_then_init_round_trip_witness :
  distinct_keys sample_const
  /\ reads_back_flag sample_convert
  /\ _file_based_config (self fresh_client) = Some false
  /\ same_credentials
       (self (snd (__init__ sample_const sample_convert
                     (config_filename (self fresh_client))
                     (config (self (snd (_write_config sample_const
                                           fresh_client))))
                     blank)))
       (self fresh_client).
Proof.
  split; [ exact sample_keys_distinct
         | split; [ exact sample_convert_reads_back
                  | split; [ reflexivity | ] ] ].
  destruct (write_then_init_round_trip sample_const sample_convert
              fresh_client blank sample_keys_distinct
              sample_convert_reads_back eq_refl) as (_ & H & _).
  exact H.
Defined.

Lemma write_then_read_config_witness :
  distinct_keys sample_const
  /\ reads_back_flag sample_convert
  /\ _file_based_config (self file_client) = Some true
  /\ exists stored,
       disk (snd (_write_config sample_const file_client))
       = [(PStr "ecobee.conf", stored)]
       /\ same_credentials
            (self (snd (read_config_from_file sample_const sample_convert
                          stored (snd (_write_config sample_const
                                         file_client)))))
            (self file_client).
Proof.
  split; [ exact sample_keys_distinct
         | split; [ exact sample_convert_reads_back
                  | split; [ reflexivity | ] ] ].
  destruct (write_then_read_config sample_const sample_convert file_client
              sample_keys_distinct sample_convert_reads_back eq_refl)
    as (stored & H1 & _ & _ & H2 & _).
  exists stored. split; [ exact H1 | exact H2 ].
Defined.

Lemma index_one_is_out_of_range :
  out_of_range
    [PDict [("identifier", PStr "411955544321"); ("name", PStr "Hallway")]] 1.
Proof. left. cbn. lia. Qed.

Lemma index_out_of_range_raises_witness :
  out_of_range
    [PDict [("identifier", PStr "411955544321"); ("name", PStr "Hallway")]] 1
  /\ get_thermostat 1 client_with_thermostat
     = (Raise IndexError, client_with_thermostat)
  /\ post_update sample_const NetTimeout 1 "set HVAC mode" PNone PNone
       client_with_thermostat
     = (Raise IndexError, client_with_thermostat).
Proof.
  split; [ exact index_one_is_out_of_range | ].
  destruct (index_out_of_range_raises sample_const NetTimeout 1 "set HVAC mode"
              PNone PNone
              [PDict [("identifier", PStr "411955544321");
                      ("name", PStr "Hallway")]]
              client_with_thermostat eq_refl index_one_is_out_of_range)
    as (H1 & _ & _ & H2).
  split; [ exact H1 | exact H2 ].
Defined.

Lemma before_first_fetch_raises_witness :
  thermostats (self fresh_client) = PNone
  /\ get_thermostat 0 fresh_client = (Raise TypeError, fresh_client)
  /\ send_message sample_const NetTimeout 0 "hello" fresh_client
     = (Raise TypeError, fresh_client).
Proof.
  split; [ reflexivity | ].
  destruct (before_first_fetch_raises sample_const NetTimeout 0 "send message"
              PNone PNone fresh_client eq_refl) as (H1 & _ & _ & _ & H2).
  split; [ exact H1 | apply H2 ].
Defined.

(** After a fetch of two thermostats, index -1 is the second one. *)
Lemma get_thermostat_after_fetch_witness :
  raises_for_status (ok_response two_thermostats_payload) = false
  /\ Py.getitem two_thermostats_payload "thermostatList"
     = Return (PList two_thermostats)
  /\ fst (get_thermostat (-1)
            (snd (get_thermostats sample_const sample_dumps
                    (NetResponse (ok_response two_thermostats_payload))
                    fresh_client)))
     = Return (PDict [("identifier", PStr "511955544322")]).
Proof.
  split; [ reflexivity | split; [ reflexivity | ] ].
  rewrite (get_thermostat_after_fetch sample_const sample_dumps
             (ok_response two_thermostats_payload) two_thermostats_payload
             two_thermostats (-1)
             (PDict [("identifier", PStr "511955544322")]) fresh_client
             eq_refl eq_refl eq_refl).
  - reflexivity.
  - right. split; [ cbn; lia | reflexivity ].
Defined.

Lemma post_update_posts_body_witness :
  Py.index (thermostats (self client_with_thermostat)) 0
  = Return (PDict [("identifier", PStr "411955544321");
                   ("name", PStr "Hallway")])
  /\ posts_body client_with_thermostat
       (post_update sample_const NetTimeout 0 "set occupancy modes" (PDict [])
          PNone client_with_thermostat)
       [selection_of (PStr "411955544321")].
Proof.
  split; [ reflexivity | ].
  destruct (post_update_posts_body sample_const NetTimeout 0
              "set occupancy modes" (PDict []) PNone client_with_thermostat
              (PDict [("identifier", PStr "411955544321");
                      ("name", PStr "Hallway")])
              (PStr "411955544321") eq_refl eq_refl) as (H & _).
  exact H.
Defined.

Lemma post_update_outcomes_witness :
  Py.index (thermostats (self client_with_thermostat)) 0
  = Return (PDict [("identifier", PStr "411955544321");
                   ("name", PStr "Hallway")])
  /\ fst (post_update sample_const (NetResponse not_found_response) 0
            "set HVAC mode" PNone PNone client_with_thermostat)
     = Return tt
  /\ fst (post_update sample_const (NetResponse expired_response) 0
            "set HVAC mode" PNone PNone client_with_thermostat)
     = Raise token_expired.
Proof.
  split; [ reflexivity | split ].
  - destruct (post_update_outcomes sample_const
                (NetResponse not_found_response) 0 "set HVAC mode" PNone PNone
                client_with_thermostat
                (PDict [("identifier", PStr "411955544321");
                        ("name", PStr "Hallway")])
                (PStr "411955544321") eq_refl eq_refl) as (H & _).
    apply H. left. exact not_found_is_absorbed_answer.
  - destruct (post_update_outcomes sample_const (NetResponse expired_response)
                0 "set HVAC mode" PNone PNone client_with_thermostat
                (PDict [("identifier", PStr "411955544321");
                        ("name", PStr "Hallway")])
                (PStr "411955544321") eq_refl eq_refl) as (_ & H).
    exact (H expired_response
             (PDict [("code", PInt 14);
                     ("message", PStr "Authentication token has expired")])
             (PInt 14) eq_refl eq_refl eq_refl eq_refl).
Defined.

Lemma set_fan_mode_scales_witness :
  Py.index (thermostats (self client_with_thermostat)) 0
  = Return (PDict [("identifier", PStr "411955544321");
                   ("name", PStr "Hallway")])
  /\ exists rq,
       wire (snd (set_fan_mode sample_const NetTimeout 0 "auto" 78 68
                    "nextTransition" client_with_thermostat))
       = (wire client_with_thermostat ++ [rq])%list
       /\ json rq
          = PDict [("selection",
                    PDict [("selectionType", PStr "thermostats");
                           ("selectionMatch", PStr "411955544321")]);
                   ("functions",
                    PList
                      [PDict
                         [("type", PStr "setHold");
                          ("params",
                           PDict [("holdType", PStr "nextTransition");
                                  ("coolHoldTemp", PInt 780);
                                  ("heatHoldTemp", PInt 680);
                                  ("fan", PStr "auto")])]])].
Proof.
  split; [ reflexivity | ].
  exact (set_fan_mode_scales sample_const NetTimeout 0 "auto" 78 68
           "nextTransition" client_with_thermostat
           (PDict [("identifier", PStr "411955544321");
                   ("name", PStr "Hallway")])
           (PStr "411955544321") eq_refl eq_refl).
Defined.

Lemma create_vacation_scales_witness :
  Py.index (thermostats (self client_with_thermostat)) 0
  = Return (PDict [("identifier", PStr "411955544321");
                   ("name", PStr "Hallway")])
  /\ posts_body client_with_thermostat
       (create_vacation sample_const NetTimeout 0 "Skiing" 82 55
          (PStr "2026-12-20") PNone (PStr "2026-12-27") PNone "auto" "0"
          client_with_thermostat)
       [selection_of (PStr "411955544321");
        ("functions",
         PList
           [PDict
              [("type", PStr "createVacation");
               ("params",
                PDict [("name", PStr "Skiing");
                       ("coolHoldTemp", PInt 820);
                       ("heatHoldTemp", PInt 550);
                       ("startDate", PStr "2026-12-20");
                       ("startTime", PNone);
                       ("endDate", PStr "2026-12-27");
                       ("endTime", PNone);
                       ("fan_mode", PStr "auto");
                       ("fan_min_on_time", PStr "0")])]])].
Proof.
  split; [ reflexivity | ].
  exact (create_vacation_scales sample_const NetTimeout 0 "Skiing" 82 55
           (PStr "2026-12-20") PNone (PStr "2026-12-27") PNone "auto" "0"
           client_with_thermostat
           (PDict [("identifier", PStr "411955544321");
                   ("name", PStr "Hallway")])
           (PStr "411955544321") eq_refl eq_refl).
Defined.

(** [set_occupancy_modes] without arguments posts two nulls. *)
Lemma settings_calls_post_props_witness :
  Py.index (thermostats (self client_with_thermostat)) 0
  = Return (PDict [("identifier", PStr "411955544321");
                   ("name", PStr "Hallway")])
  /\ posts_body client_with_thermostat
       (set_occupancy_modes sample_const NetTimeout 0 PNone PNone
          client_with_thermostat)
       [selection_of (PStr "411955544321");
        ("thermostat",
         PDict [("settings",
                 PDict [("autoAway", PNone); ("followMeComfort", PNone)])])].
Proof.
  split; [ reflexivity | ].
  destruct (settings_calls_post_props sample_const NetTimeout 0
              client_with_thermostat
              (PDict [("identifier", PStr "411955544321");
                      ("name", PStr "Hallway")])
              (PStr "411955544321") eq_refl eq_refl)
    as (_ & _ & _ & _ & H & _).
  apply H.
Defined.

Lemma function_calls_post_funcs_witness :
  Py.index (thermostats (self client_with_thermostat)) 0
  = Return (PDict [("identifier", PStr "411955544321");
                   ("name", PStr "Hallway")])
  /\ posts_body client_with_thermostat
       (resume_program sample_const NetTimeout 0 false client_with_thermostat)
       [selection_of (PStr "411955544321");
        ("functions",
         PList [PDict [("type", PStr "resumeProgram");
                       ("params", PDict [("resumeAll", PBool false)])]])].
Proof.
  split; [ reflexivity | ].
  destruct (function_calls_post_funcs sample_const NetTimeout 0
              client_with_thermostat
              (PDict [("identifier", PStr "411955544321");
                      ("name", PStr "Hallway")])
              (PStr "411955544321") eq_refl eq_refl) as (_ & _ & H).
  apply H.
Defined.
